(** * DensePolygonClassStatistics (otbtf): a shallow embedding

    The application [otb::Wrapper::DensePolygonClassStatistics]
    (app/otbDensePolygonClassStatistics.cxx) wires OTB filters into a
    streaming pipeline that counts, per polygon and per class, the valid
    pixels of a support image.  This file embeds [IsNotAlphaNum],
    [DoUpdateParameters] and [DoExecute] together with the filters they
    drive, and proves the properties the specification states about them. *)

From stdpp Require Import gmap strings list fin_maps.
From Stdlib Require Import Ascii.

Local Open Scope string_scope.
Local Open Scope list_scope.
Local Open Scope nat_scope.

(* ===================================================================== *)
(** ** Characters and strings *)
(* ===================================================================== *)

Module Chars.

(** [std::isalnum] in the "C" locale: decimal digits and the 52 unaccented
    letters. *)
Definition isalnum (c : ascii) : bool :=
  let n := nat_of_ascii c in
  (((48 <=? n) && (n <=? 57)) || ((65 <=? n) && (n <=? 90))
   || ((97 <=? n) && (n <=? 122)))%nat.

(** [bool IsNotAlphaNum(char c) { return !std::isalnum(c); }] *)
Definition IsNotAlphaNum (c : ascii) : bool := negb (isalnum c).

(** [tolower] in the "C" locale. *)
Definition tolower (c : ascii) : ascii :=
  let n := nat_of_ascii c in
  if ((65 <=? n) && (n <=? 90))%nat then ascii_of_nat (n + 32) else c.

(** [std::remove_if(first, last, pred)]: the kept characters are moved to
    the front of the buffer, in order; the buffer keeps its length and the
    new logical end is returned.  [n] counts the characters still to read,
    [first] is the read position and [result] the write position. *)
Fixpoint remove_if_from (pred : ascii -> bool) (n first result : nat)
    (buf : list ascii) : list ascii * nat :=
  match n with
  | O => (buf, result)
  | S n' =>
      match buf !! first with
      | Some c =>
          if pred c then remove_if_from pred n' (S first) result buf
          else remove_if_from pred n' (S first) (S result) (<[result := c]> buf)
      | None => (buf, result)
      end
  end.

Definition remove_if (pred : ascii -> bool) (buf : list ascii)
    : list ascii * nat :=
  remove_if_from pred (length buf) 0 0 buf.

(** [std::transform(begin, end, begin, f)] on the prefix [0, end). *)
Definition transform_prefix (f : ascii -> ascii) (e : nat) (buf : list ascii)
    : list ascii :=
  map f (take e buf) ++ drop e buf.

(** [key.substr(0, n)] *)
Definition substr0 (n : nat) (buf : list ascii) : list ascii := take n buf.

(** The body of the loop of [DoUpdateParameters] that computes the
    sanitized key of a field name:
<<
    key = item;
    end = std::remove_if(key.begin(), key.end(), IsNotAlphaNum);
    std::transform(key.begin(), end, key.begin(), tolower);
    ... key.substr(0, end - key.begin())
>> *)
Definition sanitized_key (item : string) : string :=
  let key := String.list_ascii_of_string item in
  let '(key, e) := remove_if IsNotAlphaNum key in
  let key := transform_prefix tolower e key in
  String.string_of_list_ascii (substr0 e key).

(** [std::string::rfind(c)]: position of the last occurrence. *)
Fixpoint rfind_from (c : ascii) (s : list ascii) (i : nat) (last : option nat)
    : option nat :=
  match s with
  | [] => last
  | x :: s' => rfind_from c s' (S i) (if decide (x = c) then Some i else last)
  end.

Definition rfind (c : ascii) (s : list ascii) : option nat :=
  rfind_from c s 0 None.

(** Modelled from the spec: [itksys::SystemTools::GetFilenameName] is not
    part of the sources.  The last component of a path: what follows its
    last slash. *)
Definition GetFilenameName (filename : list ascii) : list ascii :=
  match rfind "/"%char filename with
  | Some p => drop (S p) filename
  | None => filename
  end.

(** Modelled from the spec: [itksys::SystemTools::GetFilenameLastExtension]
    is not part of the sources.  The "extension" of an output path is the
    suffix of its last component that starts at the last dot, the dot
    included (the source compares it with ".xml"), and is empty when the
    component has no dot. *)
Definition GetFilenameLastExtension (filename : string) : string :=
  let name := GetFilenameName (String.list_ascii_of_string filename) in
  match rfind "."%char name with
  | Some p => String.string_of_list_ascii (drop p name)
  | None => ""
  end.

(** Modelled from the spec: [itksys::SystemTools::LowerCase] is not part of
    the sources.  The extension is compared "case-insensitive": every letter
    is folded with [tolower]. *)
Definition LowerCase (s : string) : string :=
  String.string_of_list_ascii (map tolower (String.list_ascii_of_string s)).

End Chars.

(* ===================================================================== *)
(** ** Data model *)
(* ===================================================================== *)

(** Pixel index of a raster, column then row. *)
Abbreviation Index := (nat * nat)%type.

(** A region requested from the pipeline: the cells of one tile. *)
Abbreviation Region := (list Index).

(** [LabelImageType = UInt32ImageType]: label values are 32-bit unsigned. *)
Abbreviation LabelPixel := N.

(** [StatsFilterType::LabelPopulationMapType]: label value to pixel count. *)
Abbreviation LabelPopulationMap := (gmap N nat).

(** [OGRFieldType] (GDAL): the type of an attribute field. *)
Inductive OGRFieldType :=
| OFTInteger | OFTIntegerList | OFTReal | OFTRealList | OFTString
| OFTStringList | OFTWideString | OFTWideStringList | OFTBinary | OFTDate
| OFTTime | OFTDateTime | OFTInteger64 | OFTInteger64List.

(** [OGRFieldDefn]: [GetNameRef()] and [GetType()]. *)
Record OGRFieldDefn := {
  GetNameRef : string;
  GetType : OGRFieldType;
}.

(** A feature as [DoUpdateParameters] reads it: its field definitions, in
    index order ([GetFieldCount] is their number). *)
Record OGRFeature := { GetFieldDefns : list OGRFieldDefn }.

Definition OGRLayer : Type := list OGRFeature.
Definition OGRDataSource : Type := list OGRLayer.

(** A polygon of the input vector data, already in the geometry of the
    support image: the cells whose centre it covers, its identifier, and its
    attribute values read as integer burn values. *)
Record Geometry := {
  covers : Index -> bool;
  gid : LabelPixel;
  attributes : gmap string LabelPixel;
}.

(** The value of parameter "vec": the file name, the OGR view of the file and
    the polygons it holds, in input order. *)
Record VectorFile := {
  vf_name : string;
  vf_layers : OGRDataSource;
  vf_geometries : list Geometry;
}.

(** The support image [xs]: its size and, per pixel, whether no band holds
    the no-data value declared for it (band values are floating point and
    enter the statistics only through this test). *)
Record Image := {
  im_width : nat;
  im_height : nat;
  im_valid : Index -> bool;
}.

(** Modelled from the spec: [otb::ImageToNoDataMaskFilter] and the cast
    filter behind it are not part of the sources.  The validity mask is "true
    if the source raster's pixel at that location carries no declared no-data
    value in any band, false otherwise". *)
Definition NoDataMask (xs : Image) : Index -> bool := im_valid xs.

(** [xs->GetLargestPossibleRegion()], row by row. *)
Definition LargestPossibleRegion (xs : Image) : Region :=
  y ← seq 0 (im_height xs); x ← seq 0 (im_width xs); [(x, y)].

(** The application object: parameter values, and the choices and the
    selection of the list-view parameter "field". *)
Record Application := {
  param_in : option Image;
  param_vec : option VectorFile;
  param_out : option string;
  param_ram : Z;
  field_choices : list (string * string);   (* key, name *)
  field_selected : list nat;                (* GetSelectedItems("field") *)
}.

(* ===================================================================== *)
(** ** Effects: application state, a trace of pipeline events, fatal errors *)
(* ===================================================================== *)

Inductive ProcessName := SamplesPerVector | SamplesPerClass.

Inductive Event :=
| EvOpenVectorFile (file : string)        (* ogr::DataSource::New *)
| EvLogFatal (msg : string)
| EvSetupDEM
| EvGetParameterImage                     (* the support raster is opened *)
| EvGetParameterVectorData
| EvReproject                             (* m_VectorDataReprojectionFilter->Update() *)
| EvStreamTile (p : ProcessName) (tile : Region)
                                          (* one tile read, rasterized, counted *)
| EvWriteStatistics (file : string).      (* statWriter->Update() *)

Inductive Error :=
| Fatal (msg : string)                    (* otbAppLogFATAL *)
| MissingParameter (key : string)
| OutOfRange                              (* cFieldNames[i] past the end *)
| NoFeature.                              (* no layer 0 or no first feature *)

Inductive Outcome (A : Type) :=
| Done (a : A)
| Raised (e : Error).
Arguments Done {A} a.
Arguments Raised {A} e.

(** A method of the application runs on the application object ([this]),
    may change it, logs events, and either finishes or raises. *)
Definition App (A : Type) : Type :=
  Application -> list Event * Application * Outcome A.

#[export] Instance app_ret : MRet App := fun A a s => ([], s, Done a).

#[export] Instance app_bind : MBind App := fun A B f m s =>
  match m s with
  | (t, s', Done a) => let '(t', s'', r) := f a s' in (t ++ t', s'', r)
  | (t, s', Raised e) => (t, s', Raised e)
  end.

Definition gets {A} (f : Application -> A) : App A :=
  fun s => ([], s, Done (f s)).

Definition modify (f : Application -> Application) : App unit :=
  fun s => ([], f s, Done tt).

Definition emit (e : Event) : App unit := fun s => ([e], s, Done tt).

Definition raise {A} (e : Error) : App A := fun s => ([], s, Raised e).

(** Modelled from the spec: the macro [otbAppLogFATAL] is declared in
    otbWrapperApplication.h, which is not part of the sources.  A fatal error
    is "a single terminating error with a descriptive message": the message
    is logged and control leaves the method. *)
Definition otbAppLogFATAL {A} (msg : string) : App A :=
  fun s => ([EvLogFatal msg], s, Raised (Fatal msg)).

Definition trace {A} (r : list Event * Application * Outcome A) : list Event :=
  r.1.1.
Definition final_state {A} (r : list Event * Application * Outcome A)
    : Application := r.1.2.
Definition outcome {A} (r : list Event * Application * Outcome A) : Outcome A :=
  r.2.

(** Events that open or read the support raster, rasterize, stream, or
    otherwise belong to the analysis of the polygons. *)
Definition is_analysis_event (e : Event) : bool :=
  match e with
  | EvSetupDEM | EvGetParameterImage | EvGetParameterVectorData
  | EvReproject | EvStreamTile _ _ | EvWriteStatistics _ => true
  | _ => false
  end.

Definition no_analysis (t : list Event) : Prop :=
  forallb (fun e => negb (is_analysis_event e)) t = true.

(** [GetParameterString], [GetParameterImage], ... on a parameter. *)
Definition GetParameter {A} (key : string) (p : Application -> option A)
    : App A :=
  v ← gets p;
  match v with
  | Some a => mret a
  | None => raise (MissingParameter key)
  end.

(* ===================================================================== *)
(** ** DoUpdateParameters *)
(* ===================================================================== *)

Definition with_choices (app : Application) (c : list (string * string))
    : Application :=
  {| param_in := param_in app; param_vec := param_vec app;
     param_out := param_out app; param_ram := param_ram app;
     field_choices := c; field_selected := field_selected app |}.

Definition ClearChoices : App unit :=
  modify (fun app => with_choices app []).

Definition AddChoice (key item : string) : App unit :=
  modify (fun app => with_choices app (field_choices app ++ [(key, item)])).

Definition is_class_field_type (fieldType : OGRFieldType) : bool :=
  match fieldType with
  | OFTString | OFTInteger | OFTInteger64 => true
  | _ => false
  end.

(** The loop over the fields of the feature, [iField] running over the
    definitions in order. *)
Fixpoint AddFieldChoices (defs : list OGRFieldDefn) : App unit :=
  match defs with
  | [] => mret tt
  | d :: defs' =>
      let item := GetNameRef d in
      let key := Chars.sanitized_key item in
      let fieldType := GetType d in
      (if is_class_field_type fieldType then
         let tmpKey := "field." +:+ key in
         AddChoice tmpKey item
       else mret tt);;
      AddFieldChoices defs'
  end.

(** [ogrDS->GetLayer(0)] then [layer.ogr().GetNextFeature()]. *)
Definition GetFirstFeature (ds : OGRDataSource) : App OGRFeature :=
  match ds with
  | (feature :: _) :: _ => mret feature
  | _ => raise NoFeature
  end.

Definition dquote : string := String (ascii_of_nat 34) "".

Definition wrong_extension_message (extension : string) : string :=
  extension +:+ " is a wrong extension for parameter " +:+ dquote +:+ "out"
  +:+ dquote +:+ ": Expected .xml".

Definition DoUpdateParameters : App unit :=
  vec ← gets param_vec;
  match vec with
  | Some vectorFile =>
      emit (EvOpenVectorFile (vf_name vectorFile));;
      feature ← GetFirstFeature (vf_layers vectorFile);
      ClearChoices;;
      AddFieldChoices (GetFieldDefns feature)
  | None => mret tt
  end;;
  (* Check that the extension of the output parameter is XML *)
  out ← gets param_out;
  match out with
  | Some out =>
      let extension := Chars.GetFilenameLastExtension out in
      if decide (Chars.LowerCase extension ≠ ".xml") then
        otbAppLogFATAL (wrong_extension_message extension)
      else mret tt
  | None => mret tt
  end.

(* ===================================================================== *)
(** ** The filters driven by DoExecute *)
(* ===================================================================== *)

(** [itk::NumericTraits<LabelImageType::ValueType>::max()] for a 32-bit
    unsigned pixel. *)
Definition intNoData : LabelPixel := (2 ^ 32 - 1)%N.

(** The settings [DoExecute] gives a [RasterizeFilterType]. *)
Record RasterizeFilter := {
  VectorData : list Geometry;
  BurnAttribute : string;
  BackgroundValue : LabelPixel;
  DefaultBurnValue : LabelPixel;
}.

(** Modelled from the spec: [otb::VectorDataToLabelImageFilter] is not part
    of the sources.  The burn-value selector is either the geometry
    identifier or the class code: the identifier for the attribute name
    ["________"] (the source: "Trick to get the polygon ID"), the value of the
    named attribute otherwise.  A geometry without an integer value for the
    attribute has no burn value. *)
Definition burn_value (f : RasterizeFilter) (g : Geometry) : option LabelPixel :=
  if decide (BurnAttribute f = "________") then Some (gid g)
  else attributes g !! BurnAttribute f.

(** Modelled from the spec: one geometry burnt into one cell.  A geometry
    marks the cells it covers with its burn value; a geometry without a burn
    value leaves "that geometry's pixels ... unmarked". *)
Definition burn_geometry (f : RasterizeFilter) (idx : Index)
    (pixel : LabelPixel) (g : Geometry) : LabelPixel :=
  if covers g idx then
    match burn_value f g with
    | Some v => v
    | None => pixel
    end
  else pixel.

(** Modelled from the spec: the geometries are burnt in input order, so that
    "when multiple geometries cover the same cell, the last geometry in input
    order that covers it wins".  They are burnt over the background value the
    source sets with [SetBackgroundValue], which a cell that no geometry
    marks keeps.  [DefaultBurnValue] is recorded as the source sets it; no
    geometry of this model takes it. *)
Definition rasterize (f : RasterizeFilter) (idx : Index) : LabelPixel :=
  fold_left (burn_geometry f idx) (VectorData f) (BackgroundValue f).

(** Modelled from the spec: [otb::StreamingStatisticsMapFromLabelImageFilter]
    is not part of the sources.  "For each tile, for each cell, if the
    validity mask is true at that cell, increment the population map's entry
    for the label raster's value at that cell (creating the entry with count
    1 if absent); if the validity mask is false, the cell is skipped
    regardless of its label value." *)
Definition accumulate_cell (mask : Index -> bool) (label : Index -> LabelPixel)
    (m : gmap N nat) (idx : Index) : gmap N nat :=
  if mask idx then
    match m !! label idx with
    | Some count => <[label idx := S count]> m
    | None => <[label idx := 1]> m
    end
  else m.

(** Modelled from the spec: the cells of a tile are visited one after the
    other. *)
Definition accumulate_tile (mask : Index -> bool) (label : Index -> LabelPixel)
    (m : gmap N nat) (tile : Region) : gmap N nat :=
  fold_left (accumulate_cell mask label) tile m.

(** Modelled from the spec: "partial per-tile maps may be merged in any
    order by pairwise key-wise summation". *)
Definition merge_maps (m1 m2 : gmap N nat) : gmap N nat :=
  union_with (fun a b => Some (a + b)) m1 m2.

(** Sum of the counts of a population map. *)
Definition total (m : gmap N nat) : nat :=
  map_fold (fun _ count acc => count + acc) 0 m.

(** What [DoExecute] hands to the statistics writer. *)
Record Statistics := {
  samplesPerClass : gmap N nat;
  samplesPerVector : gmap N nat;
}.

Definition m_RasterizeFIDFilter (shp : list Geometry) : RasterizeFilter :=
  {| VectorData := shp;
     BurnAttribute := "________";           (* Trick to get the polygon ID *)
     BackgroundValue := intNoData;
     DefaultBurnValue := 0%N |}.

Definition m_RasterizeClassFilter (shp : list Geometry) (fieldName : string)
    : RasterizeFilter :=
  {| VectorData := shp;
     BurnAttribute := fieldName;
     BackgroundValue := intNoData;
     DefaultBurnValue := 0%N |}.

Section Pipeline.

(** The streaming manager behind [GetStreamer()]: from the "ram" setting
    and the largest possible region, the sequence of tiles to request.  It
    belongs to OTB; the pipeline is parametric in it. *)
Variable split : Z -> Region -> list Region.

(** Modelled from the spec: one streamed pass of a statistics filter, tile
    after tile, each tile accumulated into the running population map. *)
Fixpoint stream_tiles (p : ProcessName) (mask : Index -> bool)
    (label : Index -> LabelPixel) (tiles : list Region) (m : gmap N nat)
    : App (gmap N nat) :=
  match tiles with
  | [] => mret m
  | tile :: tiles' =>
      emit (EvStreamTile p tile);;
      stream_tiles p mask label tiles' (accumulate_tile mask label m tile)
  end.

(** Modelled from the spec: [filter->Update()] resets "the population map to
    empty" and streams the tiles the manager cuts for the "ram" setting. *)
Definition StatsFilter_Update (p : ProcessName) (ram : Z)
    (mask : Index -> bool) (label : Index -> LabelPixel) (region : Region)
    : App (gmap N nat) :=
  stream_tiles p mask label (split ram region) ∅.

Definition DoExecute : App Statistics :=
  (* Retrieve the field name *)
  selectedCFieldIdx ← gets field_selected;
  (if decide (selectedCFieldIdx = []) then
     otbAppLogFATAL "No field has been selected for data labelling!"
   else mret tt);;
  cFieldNames ← gets (fun app => (field_choices app).*2);
  fieldName ← match head selectedCFieldIdx ≫= (cFieldNames !!.) with
              | Some name => mret name
              | None => raise OutOfRange
              end;
  emit EvSetupDEM;;
  (* Get inputs *)
  xs ← GetParameter "in" param_in;
  emit EvGetParameterImage;;
  shp ← GetParameter "vec" param_vec;
  emit EvGetParameterVectorData;;
  (* Reproject vector data *)
  emit EvReproject;;
  let reprojected := vf_geometries shp in
  (* Rasterize vector data (geometry ID), (geometry class) *)
  let fidFilter := m_RasterizeFIDFilter reprojected in
  let classFilter := m_RasterizeClassFilter reprojected fieldName in
  (* No data mask *)
  let mask := NoDataMask xs in
  let region := LargestPossibleRegion xs in
  ram ← gets param_ram;
  (* Stats (geometry ID) *)
  fidPopulation ← StatsFilter_Update SamplesPerVector ram
                    mask (rasterize fidFilter) region;
  (* Stats (geometry class) *)
  classPopulation ← StatsFilter_Update SamplesPerClass ram
                      mask (rasterize classFilter) region;
  (* Remove the no-data entries *)
  let fidMap := delete intNoData fidPopulation in
  let classMap := delete intNoData classPopulation in
  out ← GetParameter "out" param_out;
  emit (EvWriteStatistics out);;
  mret {| samplesPerClass := classMap; samplesPerVector := fidMap |}.

(** Modelled from the spec: the application framework that calls the two
    methods is not part of the sources.  Configuration errors are "fatal,
    pre-execution": the parameters are updated and checked, then the
    application executes. *)
Definition UpdateThenExecute : App Statistics :=
  DoUpdateParameters;; DoExecute.

End Pipeline.

(** A streaming manager for the scenarios: it cuts the region into strips of
    [ram + 1] consecutive cells. *)
Fixpoint strips (k fuel : nat) (region : Region) : list Region :=
  match fuel with
  | O => []
  | S fuel' =>
      match region with
      | [] => []
      | _ => take (S k) region :: strips k fuel' (drop (S k) region)
      end
  end.

Definition strip_split (ram : Z) (region : Region) : list Region :=
  strips (Z.to_nat ram) (length region) region.

(* ===================================================================== *)
(** ** Test scenarios of the specification *)
(* ===================================================================== *)

Module Scenario.

Definition left_half : Index -> bool := fun '(x, _) => x <? 5.
Definition right_half : Index -> bool := fun '(x, _) => 5 <=? x.

Definition polygon (c : Index -> bool) (id cls : N) : Geometry :=
  {| covers := c; gid := id; attributes := {[ "label" := cls ]} |}.

Definition image (valid : Index -> bool) : Image :=
  {| im_width := 10; im_height := 10; im_valid := valid |}.

Definition run (im : Image) (gs : list Geometry) (out : string) (ram : Z)
    : Application :=
  {| param_in := Some im;
     param_vec := Some {| vf_name := "variousVectors.shp";
                          vf_layers := [[ {| GetFieldDefns :=
                            [ {| GetNameRef := "label"; GetType := OFTInteger |} ] |} ]];
                          vf_geometries := gs |};
     param_out := Some out;
     param_ram := ram;
     field_choices := [("field.label", "label")];
     field_selected := [0] |}.

Definition A : Application :=
  run (image (fun _ => true))
      [polygon left_half 1 5; polygon right_half 2 7] "polygonStat.xml" 16.

Definition B : Application :=
  run (image right_half)
      [polygon left_half 1 5; polygon right_half 2 7] "polygonStat.xml" 16.

Definition D : Application :=
  run {| im_width := 1; im_height := 1; im_valid := fun _ => true |}
      [polygon (fun _ => true) 4 8; polygon (fun _ => true) 9 3]
      "polygonStat.xml" 16.

End Scenario.

(* ===================================================================== *)
(** ** Notions used in the statements, and further scenarios *)
(* ===================================================================== *)

(** The choices the loop registers for a list of field definitions. *)
Definition offered_choices (defs : list OGRFieldDefn) : list (string * string) :=
  map (fun d => ("field." +:+ Chars.sanitized_key (GetNameRef d), GetNameRef d))
      (List.filter (fun d => is_class_field_type (GetType d)) defs).

(** A vector file whose first layer has a first feature. *)
Definition first_feature (app : Application) : option OGRFeature :=
  match param_vec app with
  | Some vectorFile =>
      match vf_layers vectorFile with
      | (feature :: _) :: _ => Some feature
      | _ => None
      end
  | None => None
  end.

(** The field listing of [DoUpdateParameters] can run: "vec" has no value, or
    its file has a first feature in its first layer. *)
Definition vec_listable (app : Application) : Prop :=
  param_vec app = None \/ is_Some (first_feature app).

(** The state and trace after the field-listing block. *)
Definition listed (app : Application) : Application :=
  match first_feature app with
  | Some feature => with_choices app (offered_choices (GetFieldDefns feature))
  | None => app
  end.

(** The events and the outcome of the extension check on parameter "out". *)
Definition extension_check (out : option string) : list Event * Outcome unit :=
  match out with
  | Some out =>
      let extension := Chars.GetFilenameLastExtension out in
      if decide (Chars.LowerCase extension ≠ ".xml") then
        ([EvLogFatal (wrong_extension_message extension)],
         Raised (Fatal (wrong_extension_message extension)))
      else ([], Done tt)
  | None => ([], Done tt)
  end.

Module ScenarioC.

(** Scenario C: the output path is "stats.json". *)
Definition app : Application :=
  Scenario.run (Scenario.image (fun _ => true))
    [Scenario.polygon Scenario.left_half 1 5] "stats.json" 16.

(** A vector file with two layers, several features and fields of several
    types. *)
Definition fields : list OGRFieldDefn :=
  [ {| GetNameRef := "Class_ID"; GetType := OFTInteger |};
    {| GetNameRef := "area"; GetType := OFTReal |};
    {| GetNameRef := "Land-Use 2"; GetType := OFTString |};
    {| GetNameRef := "FID64"; GetType := OFTInteger64 |};
    {| GetNameRef := "when"; GetType := OFTDate |} ].

Definition vector : VectorFile :=
  {| vf_name := "variousVectors.shp";
     vf_layers :=
       [ [ {| GetFieldDefns := fields |};
           {| GetFieldDefns := [ {| GetNameRef := "other"; GetType := OFTString |} ] |} ];
         [ {| GetFieldDefns := [ {| GetNameRef := "layer2"; GetType := OFTInteger |} ] |} ] ];
     vf_geometries := [] |}.

Definition listing : Application :=
  {| param_in := None; param_vec := Some vector; param_out := None;
     param_ram := 128; field_choices := [("field.stale", "stale")];
     field_selected := [] |}.

End ScenarioC.

(** Number of cells of a list that are valid and carry label [v]. *)
Definition population (mask : Index -> bool) (label : Index -> LabelPixel)
    (cells : list Index) (v : LabelPixel) : nat :=
  length (filter (fun idx => mask idx = true /\ label idx = v) cells).

(** The map entry that stands for a count: no entry for zero. *)
Definition entry (n : nat) : option nat :=
  match n with
  | O => None
  | S _ => Some n
  end.

(** The name [DoExecute] retrieves: the choice name at the first selected
    index. *)
Definition selected_field (app : Application) : option string :=
  head (field_selected app) ≫= ((field_choices app).*2 !!.).

(** The message of the fatal error of [DoExecute]. *)
Definition no_field_message : string :=
  "No field has been selected for data labelling!".

(** The population map a statistics filter streams out of a rasterizer. *)
Definition streamed (split : Z -> Region -> list Region) (app : Application)
    (xs : Image) (f : RasterizeFilter) : gmap N nat :=
  accumulate_tile (im_valid xs) (rasterize f) ∅
    (concat (split (param_ram app) (LargestPossibleRegion xs))).

(** An application on which no class field has been selected. *)
Module NoField.

Definition app : Application :=
  {| param_in := Some (Scenario.image (fun _ => true));
     param_vec := param_vec Scenario.A;
     param_out := Some "polygonStat.xml";
     param_ram := 128;
     field_choices := [("field.label", "label")];
     field_selected := [] |}.

End NoField.

(** A streaming manager covers the region exactly once: its tiles, put end
    to end, are the cells of the region in some order. *)
Definition covers_once (split : Z -> Region -> list Region) : Prop :=
  forall ram region, concat (split ram region) ≡ₚ region.

(** The application with another value of parameter "ram". *)
Definition with_ram (app : Application) (ram : Z) : Application :=
  {| param_in := param_in app; param_vec := param_vec app;
     param_out := param_out app; param_ram := ram;
     field_choices := field_choices app;
     field_selected := field_selected app |}.

(** The streaming manager that requests the whole region as one tile. *)
Definition single_tile (ram : Z) (region : Region) : list Region := [region].

(** The two managers cut the 10 by 10 region of the scenarios differently
    under the budgets 2 and 4096. *)
Definition split_differs (split1 split2 : Z -> Region -> list Region) : Prop :=
  split1 2%Z (LargestPossibleRegion (Scenario.image (fun _ => true)))
  ≠ split2 4096%Z (LargestPossibleRegion (Scenario.image (fun _ => true))).

(** Some geometry of the list covers the cell. *)
Definition covered (shp : list Geometry) (idx : Index) : bool :=
  existsb (fun g => covers g idx) shp.

(** Scenario D, as a rasterization problem. *)
Module ScenarioD.

Definition earlier : list Geometry := [Scenario.polygon (fun _ => true) 4 8].
Definition later_one : Geometry := Scenario.polygon (fun _ => true) 9 3.

End ScenarioD.

(** The reading of the specification that C6 states: an uncovered cell holds
    0 when the background convention applies and the sentinel otherwise. *)
Definition spec_uncovered_value (background_applies : bool) : LabelPixel :=
  if background_applies then 0%N else intNoData.

(** C6 as stated, for the two rasterizers of [DoExecute]. *)
Definition background_zero_claim : Prop :=
  forall (background_applies : bool) (shp : list Geometry) (fieldName : string)
         (idx : Index),
    (forall g, g ∈ shp -> covers g idx = false) ->
    rasterize (m_RasterizeFIDFilter shp) idx
    = spec_uncovered_value background_applies
    /\ rasterize (m_RasterizeClassFilter shp fieldName) idx
       = spec_uncovered_value background_applies.

(** Number of cells of the image that are valid and covered by a geometry. *)
Definition valid_covered (xs : Image) (shp : list Geometry) : nat :=
  length (filter (fun idx => im_valid xs idx = true /\ covered shp idx = true)
            (LargestPossibleRegion xs)).

(** The premise of C3: every geometry has a class, i.e. a value of the
    selected class field. *)
Definition every_geometry_has_a_class (shp : list Geometry) (fieldName : string)
    : Prop :=
  forall g, g ∈ shp -> is_Some (attributes g !! fieldName).

(** C3 as stated. *)
Definition sample_sums_claim : Prop :=
  forall (split : Z -> Region -> list Region) (app : Application)
         (fieldName : string) (xs : Image) (shp : VectorFile) (out : string)
         (stats : Statistics),
    covers_once split ->
    selected_field app = Some fieldName ->
    param_in app = Some xs ->
    param_vec app = Some shp ->
    param_out app = Some out ->
    every_geometry_has_a_class (vf_geometries shp) fieldName ->
    outcome (DoExecute split app) = Done stats ->
    total (samplesPerVector stats) = total (samplesPerClass stats)
    /\ total (samplesPerClass stats) = valid_covered xs (vf_geometries shp).

(** An input whose only polygon has the class code 4294967295. *)
Module Collision.

Definition app : Application :=
  Scenario.run {| im_width := 1; im_height := 1; im_valid := fun _ => true |}
    [Scenario.polygon (fun _ => true) 1 4294967295] "polygonStat.xml" 16.

End Collision.

(* ===================================================================== *)
(** ** DoInit, and notions for further properties of the methods *)
(* ===================================================================== *)












(** Characters a sanitized key is made of: decimal digits and lower-case
    letters. *)
Definition is_key_char (c : ascii) : bool :=
  let n := nat_of_ascii c in
  (((48 <=? n) && (n <=? 57)) || ((97 <=? n) && (n <=? 122)))%nat.

(** The characters of a string. *)
Definition chars (s : string) : list ascii := String.list_ascii_of_string s.

(** The statistics writer ran. *)
Definition is_write_event (e : Event) : bool :=
  match e with
  | EvWriteStatistics _ => true
  | _ => false
  end.

(** The vector file was opened. *)
Definition is_open_vector_event (e : Event) : bool :=
  match e with
  | EvOpenVectorFile _ => true
  | _ => false
  end.

(** The application with another selection on "field". *)
Definition with_selection (app : Application) (selected : list nat)
    : Application :=
  {| param_in := param_in app; param_vec := param_vec app;
     param_out := param_out app; param_ram := param_ram app;
     field_choices := field_choices app;
     field_selected := selected |}.

(** The events up to the end of the two statistics passes. *)
Definition analysis_events (split : Z -> Region -> list Region)
    (app : Application) (xs : Image) : list Event :=
  [EvSetupDEM; EvGetParameterImage; EvGetParameterVectorData; EvReproject]
  ++ map (EvStreamTile SamplesPerVector)
       (split (param_ram app) (LargestPossibleRegion xs))
  ++ map (EvStreamTile SamplesPerClass)
       (split (param_ram app) (LargestPossibleRegion xs)).

(** The application with another value of parameter "out". *)
Definition with_out (app : Application) (out : string) : Application :=
  {| param_in := param_in app; param_vec := param_vec app;
     param_out := Some out; param_ram := param_ram app;
     field_choices := field_choices app;
     field_selected := field_selected app |}.

(** The output path is absent or its extension is ".xml" up to case. *)
Definition out_accepted (app : Application) : Prop :=
  param_out app = None
  \/ exists out, param_out app = Some out
       /\ Chars.LowerCase (Chars.GetFilenameLastExtension out) = ".xml".

(** Further inputs for the properties of the methods. *)
Module ScenarioE.




End ScenarioE.

(* ===================================================================== *)
(** ** Sanitized keys: the in-place algorithm is filter-then-lowercase *)
(* ===================================================================== *)

Module CharsFacts.
Import Chars.

Lemma remove_if_from_spec pred n :
  forall first result buf kept rest,
    take result buf = kept ->
    drop first buf = rest ->
    length rest = n ->
    result <= first ->
    take (remove_if_from pred n first result buf).2
         (remove_if_from pred n first result buf).1
    = kept ++ List.filter (fun c => negb (pred c)) rest.
Proof.
  induction n as [|n IH]; intros first result buf kept rest Hk Hr Hn Hle.
  - destruct rest; [|discriminate]. simpl. by rewrite app_nil_r.
  - destruct rest as [|c rest']; [discriminate|]. simpl in Hn.
    assert (Hc : buf !! first = Some c).
    { rewrite <- (Nat.add_0_r first), <- lookup_drop, Hr. done. }
    assert (Hlt : first < length buf) by (by eapply lookup_lt_Some).
    assert (Hr' : drop (S first) buf = rest').
    { replace (S first) with (first + 1) by lia.
      by rewrite <- drop_drop, Hr. }
    simpl. rewrite Hc. destruct (pred c) eqn:Hp; simpl.
    + apply IH; [done|done|lia|lia].
    + rewrite (IH (S first) (S result) (<[result:=c]> buf) (kept ++ [c]) rest').
      * by rewrite <- app_assoc.
      * rewrite (take_S_r _ _ c).
        -- rewrite take_insert_ge by lia. by rewrite Hk.
        -- apply list_lookup_insert_eq. lia.
      * rewrite drop_insert_lt by lia. done.
      * lia.
      * lia.
Qed.

Lemma remove_if_spec pred buf :
  take (remove_if pred buf).2 (remove_if pred buf).1
  = List.filter (fun c => negb (pred c)) buf.
Proof.
  unfold remove_if.
  by rewrite (remove_if_from_spec pred (length buf) 0 0 buf [] buf).
Qed.

Lemma substr0_transform_prefix f e buf :
  substr0 e (transform_prefix f e buf) = map f (take e buf).
Proof.
  unfold substr0, transform_prefix.
  rewrite take_app, length_map, length_take.
  rewrite (take_ge (map f (take e buf))) by (rewrite length_map, length_take; lia).
  destruct (decide (e <= length buf)) as [Hle|Hgt].
  - replace (e - e `min` length buf) with 0 by lia. by rewrite take_0, app_nil_r.
  - rewrite (drop_ge buf e) by lia. by rewrite take_nil, app_nil_r.
Qed.

(** The key computed in place is the field name with the characters that
    are not alphanumeric dropped and the rest lower-cased. *)
Lemma sanitized_key_spec item :
  sanitized_key item
  = String.string_of_list_ascii
      (map tolower (List.filter isalnum (String.list_ascii_of_string item))).
Proof.
  unfold sanitized_key.
  pose proof (remove_if_spec IsNotAlphaNum (String.list_ascii_of_string item)) as H.
  destruct (remove_if IsNotAlphaNum (String.list_ascii_of_string item)) as [key e].
  simpl in H. rewrite substr0_transform_prefix, H. f_equal. f_equal.
  apply List.filter_ext. intros c. unfold IsNotAlphaNum. by rewrite negb_involutive.
Qed.

End CharsFacts.

(* ===================================================================== *)
(** ** DoUpdateParameters: field choices and the extension check *)
(* ===================================================================== *)

Ltac app_unfold :=
  unfold mbind, app_bind, mret, app_ret, gets, modify, emit, raise,
    otbAppLogFATAL, GetParameter, trace, outcome, final_state in *.

Lemma AddFieldChoices_run defs : forall app,
  AddFieldChoices defs app
  = ([], with_choices app (field_choices app ++ offered_choices defs), Done tt).
Proof.
  induction defs as [|d defs IH]; intros app.
  - unfold offered_choices; simpl. app_unfold. rewrite app_nil_r.
    by destruct app.
  - simpl. unfold offered_choices in *. simpl.
    destruct (is_class_field_type (GetType d)); unfold AddChoice; app_unfold;
      simpl; rewrite IH; simpl; [|done].
    by rewrite <- app_assoc.
Qed.

Lemma DoUpdateParameters_run app :
  DoUpdateParameters app =
  match param_vec app with
  | Some vectorFile =>
      match first_feature app with
      | Some _ =>
          (EvOpenVectorFile (vf_name vectorFile) :: (extension_check (param_out app)).1,
           listed app, (extension_check (param_out app)).2)
      | None => ([EvOpenVectorFile (vf_name vectorFile)], app, Raised NoFeature)
      end
  | None => ((extension_check (param_out app)).1, app,
             (extension_check (param_out app)).2)
  end.
Proof.
  unfold DoUpdateParameters, listed, first_feature, extension_check.
  destruct (param_vec app) as [vf|] eqn:Hvec.
  - unfold GetFirstFeature, ClearChoices. app_unfold. rewrite Hvec.
    destruct (vf_layers vf) as [|[|feature fs] ls]; simpl; try done.
    rewrite AddFieldChoices_run. simpl.
    destruct (param_out app) as [out|]; simpl; [|done].
    destruct (decide _); done.
  - app_unfold. rewrite Hvec. simpl.
    destruct (param_out app) as [out|]; simpl; [|done].
    destruct (decide _); done.
Qed.

Lemma is_class_field_type_spec t :
  is_class_field_type t = true <-> t = OFTString \/ t = OFTInteger \/ t = OFTInteger64.
Proof. destruct t; simpl; split; intros H; try done; auto; by destruct H as [|[|]]. Qed.

Lemma bind_raised {A B} (m : App A) (f : A -> App B) app t app' e :
  m app = (t, app', Raised e) -> (m ≫= f) app = (t, app', Raised e).
Proof. intros H. app_unfold. by rewrite H. Qed.

Lemma extension_check_wrong out :
  Chars.LowerCase (Chars.GetFilenameLastExtension out) ≠ ".xml" ->
  extension_check (Some out)
  = ([EvLogFatal (wrong_extension_message (Chars.GetFilenameLastExtension out))],
     Raised (Fatal (wrong_extension_message (Chars.GetFilenameLastExtension out)))).
Proof. intros H. unfold extension_check. by destruct (decide _). Qed.

(** C10: the selectable class fields are computed from the first feature of
    the first layer of the input vector file only: after [DoUpdateParameters]
    the choices of "field" are exactly, in order, the fields of that feature
    whose type is String, Integer or Integer64, each registered under the
    parameter "field" with, as key, its name with the non-alphanumeric
    characters removed and the letters lower-cased. *)
Theorem field_choices_of_first_feature
    (app : Application) (vectorFile : VectorFile) (feature : OGRFeature)
    (features : list OGRFeature) (layers : list OGRLayer) :
  param_vec app = Some vectorFile ->
  vf_layers vectorFile = (feature :: features) :: layers ->
  field_choices (final_state (DoUpdateParameters app))
  = map (fun d =>
           ("field." +:+
              String.string_of_list_ascii
                (map Chars.tolower
                   (List.filter Chars.isalnum
                      (String.list_ascii_of_string (GetNameRef d)))),
            GetNameRef d))
        (List.filter (fun d => is_class_field_type (GetType d))
           (GetFieldDefns feature))
  /\ (forall t, is_class_field_type t = true
                <-> t = OFTString \/ t = OFTInteger \/ t = OFTInteger64).
Proof.
  intros Hvec Hlayers. split; [|apply is_class_field_type_spec].
  rewrite DoUpdateParameters_run, Hvec.
  unfold listed, first_feature. rewrite Hvec, Hlayers. simpl.
  unfold offered_choices. apply map_ext. intros d.
  by rewrite CharsFacts.sanitized_key_spec.
Qed.

Lemma field_choices_of_first_feature_witness :
  param_vec ScenarioC.listing = Some ScenarioC.vector
  /\ field_choices (final_state (DoUpdateParameters ScenarioC.listing))
     = [("field.classid", "Class_ID"); ("field.landuse2", "Land-Use 2");
        ("field.fid64", "FID64")].
Proof.
  split; [reflexivity|].
  exact (proj1 (field_choices_of_first_feature ScenarioC.listing ScenarioC.vector
                  _ _ _ eq_refl eq_refl)).
Defined.

(** C7: when the extension of the output path, compared case-insensitively,
    is not ".xml", [DoUpdateParameters] ends in an error without having opened
    the raster or started any analysis, that error is the fatal "wrong
    extension" error whenever the field listing can run, and a run that
    updates the parameters and then executes stops there.  The path
    "stats.json" is such a path. *)
Theorem wrong_extension_is_fatal
    (split : Z -> Region -> list Region) (app : Application) (out : string) :
  param_out app = Some out ->
  Chars.LowerCase (Chars.GetFilenameLastExtension out) ≠ ".xml" ->
  no_analysis (trace (DoUpdateParameters app))
  /\ (exists e, outcome (DoUpdateParameters app) = Raised e)
  /\ (vec_listable app ->
      outcome (DoUpdateParameters app)
      = Raised (Fatal (wrong_extension_message (Chars.GetFilenameLastExtension out)))
      /\ last (trace (DoUpdateParameters app))
         = Some (EvLogFatal (wrong_extension_message (Chars.GetFilenameLastExtension out))))
  /\ trace (UpdateThenExecute split app) = trace (DoUpdateParameters app)
  /\ (exists e, outcome (UpdateThenExecute split app) = Raised e).
Proof.
  intros Hout Hext.
  assert (Hrun : exists t s e, DoUpdateParameters app = (t, s, Raised e)
            /\ no_analysis t
            /\ (vec_listable app ->
                e = Fatal (wrong_extension_message (Chars.GetFilenameLastExtension out))
                /\ last t = Some (EvLogFatal (wrong_extension_message
                                    (Chars.GetFilenameLastExtension out))))).
  { rewrite DoUpdateParameters_run, Hout, (extension_check_wrong _ Hext).
    unfold vec_listable.
    destruct (param_vec app) as [vf|]; [destruct (first_feature app) eqn:Hf|];
      simpl; do 3 eexists; (split; [reflexivity|]); split; try done.
    intros [H|[? H]]; discriminate. }
  destruct Hrun as (t & s & e & Hrun & Hna & Hfatal).
  unfold UpdateThenExecute. rewrite (bind_raised _ _ _ _ _ _ Hrun), Hrun.
  unfold trace, outcome; simpl. split; [done|]. split; [by eexists|].
  split; [|split; [done|by eexists]].
  intros Hl. destruct (Hfatal Hl) as [-> Hlast]. done.
Qed.

Lemma wrong_extension_is_fatal_witness :
  param_out ScenarioC.app = Some "stats.json"
  /\ Chars.LowerCase (Chars.GetFilenameLastExtension "stats.json") = ".json"
  /\ outcome (DoUpdateParameters ScenarioC.app)
     = Raised (Fatal (wrong_extension_message ".json"))
  /\ no_analysis (trace (UpdateThenExecute strip_split ScenarioC.app)).
Proof.
  assert (Hext : Chars.LowerCase (Chars.GetFilenameLastExtension "stats.json")
                 ≠ ".xml") by (vm_compute; discriminate).
  pose proof (wrong_extension_is_fatal strip_split ScenarioC.app "stats.json"
                eq_refl Hext) as (Hna & _ & Hfatal & Htrace & _).
  split; [reflexivity|]. split; [reflexivity|]. split.
  - apply Hfatal. right. by eexists.
  - by rewrite Htrace.
Defined.

(* ===================================================================== *)
(** ** The population accumulator *)
(* ===================================================================== *)

Section Accumulator.

Variable mask : Index -> bool.
Variable label : Index -> LabelPixel.

Lemma accumulate_cell_valid m idx :
  mask idx = true ->
  accumulate_cell mask label m idx
  = <[label idx := S (default 0 (m !! label idx))]> m.
Proof.
  intros H. unfold accumulate_cell. rewrite H.
  by destruct (m !! label idx).
Qed.

Lemma accumulate_cell_invalid m idx :
  mask idx = false -> accumulate_cell mask label m idx = m.
Proof. intros H. unfold accumulate_cell. by rewrite H. Qed.

Lemma lookup_accumulate_cell m idx v :
  accumulate_cell mask label m idx !! v
  = if decide (mask idx = true /\ label idx = v)
    then Some (S (default 0 (m !! v)))
    else m !! v.
Proof.
  destruct (mask idx) eqn:Hm.
  - rewrite accumulate_cell_valid by done.
    destruct (decide (label idx = v)) as [<-|Hne].
    + rewrite lookup_insert_eq. by rewrite decide_True.
    + rewrite lookup_insert_ne by done. rewrite decide_False; [done|tauto].
  - rewrite accumulate_cell_invalid by done.
    rewrite decide_False; [done|]. intros [? _]. done.
Qed.

Lemma population_cons idx cells v :
  population mask label (idx :: cells) v
  = (if decide (mask idx = true /\ label idx = v) then 1 else 0)
    + population mask label cells v.
Proof.
  unfold population. rewrite filter_cons. by destruct (decide _).
Qed.

Lemma population_app cells1 cells2 v :
  population mask label (cells1 ++ cells2) v
  = population mask label cells1 v + population mask label cells2 v.
Proof. unfold population. by rewrite filter_app, length_app. Qed.

Lemma population_Permutation cells1 cells2 v :
  cells1 ≡ₚ cells2 ->
  population mask label cells1 v = population mask label cells2 v.
Proof. intros H. unfold population. by rewrite H. Qed.

(** What a pass over a list of cells leaves under a key. *)
Lemma lookup_accumulate_tile tile : forall m v,
  accumulate_tile mask label m tile !! v
  = match population mask label tile v with
    | O => m !! v
    | S n => Some (default 0 (m !! v) + S n)
    end.
Proof.
  induction tile as [|idx tile IH]; intros m v; [done|].
  unfold accumulate_tile in *. simpl. rewrite IH, population_cons.
  rewrite lookup_accumulate_cell.
  destruct (decide _); destruct (population mask label tile v); simpl;
    try done; f_equal; lia.
Qed.

Lemma lookup_accumulate_tile_empty tile v :
  accumulate_tile mask label ∅ tile !! v = entry (population mask label tile v).
Proof.
  rewrite lookup_accumulate_tile, lookup_empty.
  by destruct (population mask label tile v).
Qed.

Lemma accumulate_tile_app m tile1 tile2 :
  accumulate_tile mask label m (tile1 ++ tile2)
  = accumulate_tile mask label (accumulate_tile mask label m tile1) tile2.
Proof. unfold accumulate_tile. by rewrite fold_left_app. Qed.

(** Tile after tile is one pass over the concatenation of the tiles. *)
Lemma accumulate_tiles_concat tiles : forall m,
  fold_left (accumulate_tile mask label) tiles m
  = accumulate_tile mask label m (concat tiles).
Proof.
  induction tiles as [|tile tiles IH]; intros m; [done|].
  simpl. by rewrite IH, accumulate_tile_app.
Qed.

Lemma stream_tiles_run p tiles : forall m app,
  stream_tiles p mask label tiles m app
  = (map (EvStreamTile p) tiles, app,
     Done (accumulate_tile mask label m (concat tiles))).
Proof.
  induction tiles as [|tile tiles IH]; intros m app; [done|].
  simpl. app_unfold. simpl. rewrite IH. simpl.
  by rewrite accumulate_tile_app.
Qed.

(** The sum of the counts grows by one per valid cell. *)
Lemma total_insert_S (m : gmap N nat) k :
  total (<[k := S (default 0 (m !! k))]> m) = S (total m).
Proof.
  unfold total.
  assert (Hcomm : forall (j1 j2 : N) (z1 z2 y : nat),
             z1 + (z2 + y) = z2 + (z1 + y)) by (intros; lia).
  destruct (m !! k) as [c|] eqn:Hk; simpl.
  - rewrite <- (insert_delete_eq m k (S c)).
    rewrite map_fold_insert_L; [|intros; apply Hcomm; done|apply lookup_delete_eq].
    rewrite (map_fold_delete_L _ _ k c m); [lia|intros; apply Hcomm; done|done].
  - rewrite map_fold_insert_L; [lia|intros; apply Hcomm; done|done].
Qed.

Lemma total_delete (m : gmap N nat) k :
  total (delete k m) + default 0 (m !! k) = total m.
Proof.
  unfold total. destruct (m !! k) as [c|] eqn:Hk; simpl.
  - rewrite (map_fold_delete_L _ _ k c m); [lia|intros; lia|done].
  - rewrite delete_id by done. lia.
Qed.

Lemma total_accumulate_tile (tile : list Index) : forall m,
  total (accumulate_tile mask label m tile)
  = total m + length (filter (fun idx => mask idx = true) tile).
Proof.
  induction tile as [|idx tile IH]; intros m; [simpl; lia|].
  unfold accumulate_tile in *. rewrite filter_cons. cbn [fold_left].
  rewrite IH. destruct (mask idx) eqn:Hm.
  - rewrite accumulate_cell_valid, total_insert_S by done.
    rewrite decide_True by done. simpl. lia.
  - rewrite accumulate_cell_invalid by done.
    rewrite decide_False by done. done.
Qed.

End Accumulator.

(* ===================================================================== *)
(** ** DoExecute, evaluated *)
(* ===================================================================== *)

Section Execute.

Variable split : Z -> Region -> list Region.

Lemma DoExecute_no_field app :
  field_selected app = [] ->
  DoExecute split app
  = ([EvLogFatal no_field_message], app, Raised (Fatal no_field_message)).
Proof.
  intros H. unfold DoExecute. app_unfold. simpl. rewrite H. done.
Qed.

Lemma StatsFilter_Update_run p app xs f :
  StatsFilter_Update split p (param_ram app) (im_valid xs) (rasterize f)
    (LargestPossibleRegion xs) app
  = (map (EvStreamTile p) (split (param_ram app) (LargestPossibleRegion xs)),
     app, Done (streamed split app xs f)).
Proof. unfold StatsFilter_Update. by rewrite stream_tiles_run. Qed.

Lemma DoExecute_run app fieldName xs shp out :
  selected_field app = Some fieldName ->
  param_in app = Some xs ->
  param_vec app = Some shp ->
  param_out app = Some out ->
  DoExecute split app
  = ([EvSetupDEM; EvGetParameterImage; EvGetParameterVectorData; EvReproject]
     ++ map (EvStreamTile SamplesPerVector)
          (split (param_ram app) (LargestPossibleRegion xs))
     ++ map (EvStreamTile SamplesPerClass)
          (split (param_ram app) (LargestPossibleRegion xs))
     ++ [EvWriteStatistics out],
     app,
     Done {| samplesPerClass :=
               delete intNoData
                 (streamed split app xs
                    (m_RasterizeClassFilter (vf_geometries shp) fieldName));
             samplesPerVector :=
               delete intNoData
                 (streamed split app xs (m_RasterizeFIDFilter (vf_geometries shp))) |}).
Proof.
  intros Hsel Hin Hvec Hout.
  assert (Hne : field_selected app ≠ []).
  { intros H. unfold selected_field in Hsel. by rewrite H in Hsel. }
  unfold DoExecute, NoDataMask, selected_field in *.
  unfold GetParameter, gets, emit. unfold mbind, mret in *.
  unfold app_bind, app_ret.
  rewrite decide_False by done. rewrite Hsel, Hin, Hvec.
  rewrite !StatsFilter_Update_run, Hout. simpl. done.
Qed.

End Execute.

(* ===================================================================== *)
(** ** Configuration error: no class field selected *)
(* ===================================================================== *)

(** C8: if no class field has been selected, [DoExecute] fails with the fatal
    error "No field has been selected for data labelling!", and the only
    event before the failure is the log of that message: nothing was
    rasterized, streamed, read from the raster or written. *)
Theorem no_field_selected_is_fatal
    (split : Z -> Region -> list Region) (app : Application) :
  field_selected app = [] ->
  outcome (DoExecute split app) = Raised (Fatal no_field_message)
  /\ trace (DoExecute split app) = [EvLogFatal no_field_message]
  /\ no_analysis (trace (DoExecute split app))
  /\ final_state (DoExecute split app) = app.
Proof.
  intros H. rewrite (DoExecute_no_field split app H). done.
Qed.

Lemma no_field_selected_is_fatal_witness :
  field_selected NoField.app = []
  /\ outcome (DoExecute strip_split NoField.app)
     = Raised (Fatal "No field has been selected for data labelling!")
  /\ no_analysis (trace (DoExecute strip_split NoField.app)).
Proof.
  pose proof (no_field_selected_is_fatal strip_split NoField.app eq_refl)
    as (Ho & _ & Hna & _).
  split; [reflexivity|]. split; [exact Ho|exact Hna].
Defined.

(* ===================================================================== *)
(** ** Finalization: the no-data entries are removed *)
(* ===================================================================== *)

(** C2: for valid inputs [DoExecute] returns, and neither "samplesPerClass"
    nor "samplesPerVector" has an entry under the no-data sentinel, which is
    the largest value of the 32-bit unsigned label pixel type. *)
Theorem outputs_have_no_sentinel_entry
    (split : Z -> Region -> list Region) (app : Application)
    (fieldName : string) (xs : Image) (shp : VectorFile) (out : string) :
  selected_field app = Some fieldName ->
  param_in app = Some xs ->
  param_vec app = Some shp ->
  param_out app = Some out ->
  exists stats,
    outcome (DoExecute split app) = Done stats
    /\ samplesPerClass stats !! intNoData = None
    /\ samplesPerVector stats !! intNoData = None
    /\ (intNoData ∉ dom (samplesPerClass stats))
    /\ (intNoData ∉ dom (samplesPerVector stats))
    /\ intNoData = 4294967295%N
    /\ (forall v : LabelPixel, (v < 2 ^ 32)%N -> (v <= intNoData)%N).
Proof.
  intros Hsel Hin Hvec Hout.
  rewrite (DoExecute_run split app fieldName xs shp out) by done.
  eexists. split; [reflexivity|]. simpl.
  rewrite !not_elem_of_dom, !lookup_delete_eq.
  repeat split. intros v Hv. unfold intNoData. lia.
Qed.

Lemma outputs_have_no_sentinel_entry_witness :
  selected_field Scenario.B = Some "label"
  /\ exists stats,
       outcome (DoExecute strip_split Scenario.B) = Done stats
       /\ samplesPerClass stats !! intNoData = None
       /\ samplesPerVector stats !! intNoData = None.
Proof.
  split; [reflexivity|].
  destruct (outputs_have_no_sentinel_entry strip_split Scenario.B "label"
              _ _ _ eq_refl eq_refl eq_refl eq_refl)
    as (stats & Ho & Hc & Hv & _).
  exists stats. split; [exact Ho|]. split; [exact Hc|exact Hv].
Defined.

(** C9: finalization only removes a key.  For valid inputs, each output map
    agrees with the map its statistics filter accumulated on every key other
    than the no-data sentinel, and is that map unchanged when the sentinel
    key is absent from it. *)
Theorem finalization_only_removes_the_sentinel
    (split : Z -> Region -> list Region) (app : Application)
    (fieldName : string) (xs : Image) (shp : VectorFile) (out : string) :
  selected_field app = Some fieldName ->
  param_in app = Some xs ->
  param_vec app = Some shp ->
  param_out app = Some out ->
  exists stats fidPopulation classPopulation,
    outcome (DoExecute split app) = Done stats
    /\ outcome (StatsFilter_Update split SamplesPerVector (param_ram app)
                  (NoDataMask xs)
                  (rasterize (m_RasterizeFIDFilter (vf_geometries shp)))
                  (LargestPossibleRegion xs) app) = Done fidPopulation
    /\ outcome (StatsFilter_Update split SamplesPerClass (param_ram app)
                  (NoDataMask xs)
                  (rasterize (m_RasterizeClassFilter (vf_geometries shp) fieldName))
                  (LargestPossibleRegion xs) app) = Done classPopulation
    /\ (forall k, k ≠ intNoData ->
          samplesPerVector stats !! k = fidPopulation !! k
          /\ samplesPerClass stats !! k = classPopulation !! k)
    /\ (fidPopulation !! intNoData = None -> samplesPerVector stats = fidPopulation)
    /\ (classPopulation !! intNoData = None -> samplesPerClass stats = classPopulation).
Proof.
  intros Hsel Hin Hvec Hout.
  rewrite (DoExecute_run split app fieldName xs shp out) by done.
  unfold NoDataMask. rewrite !StatsFilter_Update_run.
  do 3 eexists. split; [reflexivity|]. split; [reflexivity|].
  split; [reflexivity|]. simpl. split; [|split].
  - intros k Hk. by rewrite !lookup_delete_ne.
  - apply delete_id.
  - apply delete_id.
Qed.

Lemma finalization_only_removes_the_sentinel_witness :
  selected_field Scenario.A = Some "label"
  /\ exists stats (fidPopulation classPopulation : gmap N nat),
       outcome (DoExecute strip_split Scenario.A) = Done stats
       /\ samplesPerVector stats !! 1%N = fidPopulation !! 1%N
       /\ samplesPerClass stats !! 5%N = classPopulation !! 5%N.
Proof.
  split; [reflexivity|].
  destruct (finalization_only_removes_the_sentinel strip_split Scenario.A "label"
              _ _ _ eq_refl eq_refl eq_refl eq_refl)
    as (stats & fidPopulation & classPopulation & Ho & _ & _ & Hk & _).
  exists stats, fidPopulation, classPopulation. split; [exact Ho|]. split.
  - apply (Hk 1%N). discriminate.
  - apply (Hk 5%N). discriminate.
Defined.

(* ===================================================================== *)
(** ** The accumulator counts valid cells only *)
(* ===================================================================== *)

Lemma population_none mask label (cells : list Index) v :
  (forall idx, idx ∈ cells -> label idx = v -> mask idx = false) ->
  population mask label cells v = 0.
Proof.
  intros H. unfold population.
  induction cells as [|idx cells IH]; [done|].
  rewrite filter_cons. destruct (decide _) as [[Hm Hl]|_].
  - rewrite (H idx) in Hm; [done|by left|done].
  - apply IH. intros idx' Hin. apply H. by right.
Qed.

(** C1: a cell whose validity mask is true increments the entry of its label
    value, creating it with count 1 if absent, and leaves the other entries
    alone; a cell whose mask is false leaves the map as it is, whatever its
    label.  Hence the map a statistics filter returns holds, per label value,
    the number of valid cells of the tiles that carry it, and a label value
    present only behind invalid pixels has no entry. *)
Theorem accumulator_counts_valid_cells
    (split : Z -> Region -> list Region) (p : ProcessName) (ram : Z)
    (mask : Index -> bool) (label : Index -> LabelPixel) (region : Region)
    (app : Application) :
  (forall (m : gmap N nat) idx,
      mask idx = true ->
      (m !! label idx = None ->
       accumulate_cell mask label m idx !! label idx = Some 1)
      /\ (forall count, m !! label idx = Some count ->
          accumulate_cell mask label m idx !! label idx = Some (S count))
      /\ (forall k, k ≠ label idx ->
          accumulate_cell mask label m idx !! k = m !! k))
  /\ (forall (m : gmap N nat) idx,
        mask idx = false -> accumulate_cell mask label m idx = m)
  /\ exists m : gmap N nat,
       outcome (StatsFilter_Update split p ram mask label region app) = Done m
       /\ (forall v,
             m !! v = entry (population mask label (concat (split ram region)) v))
       /\ (forall v,
             (forall idx, idx ∈ concat (split ram region) ->
                          label idx = v -> mask idx = false) ->
             m !! v = None /\ v ∉ dom m).
Proof.
  split; [|split].
  - intros m idx Hm. rewrite accumulate_cell_valid by done. split; [|split].
    + intros ->. by rewrite lookup_insert_eq.
    + intros count ->. by rewrite lookup_insert_eq.
    + intros k Hk. by rewrite lookup_insert_ne.
  - intros m idx Hm. by apply accumulate_cell_invalid.
  - unfold StatsFilter_Update. rewrite stream_tiles_run.
    eexists. split; [reflexivity|]. split.
    + intros v. apply lookup_accumulate_tile_empty.
    + intros v Hv. rewrite not_elem_of_dom, lookup_accumulate_tile_empty.
      by rewrite population_none.
Qed.

(* ===================================================================== *)
(** ** Tiling independence *)
(* ===================================================================== *)

Lemma strips_concat k fuel : forall region : Region,
  length region <= fuel -> concat (strips k fuel region) = region.
Proof.
  induction fuel as [|fuel IH]; intros region Hlen.
  - destruct region; [done|simpl in Hlen; lia].
  - destruct region as [|idx region]; [done|].
    cbn [strips concat]. rewrite IH.
    + apply take_drop.
    + rewrite length_drop. simpl in *. lia.
Qed.

Lemma strip_split_covers_once : covers_once strip_split.
Proof.
  intros ram region. unfold strip_split. by rewrite strips_concat.
Qed.

Lemma accumulate_Permutation mask label (cells1 cells2 : list Index) :
  cells1 ≡ₚ cells2 ->
  accumulate_tile mask label ∅ cells1 = accumulate_tile mask label ∅ cells2.
Proof.
  intros H. apply map_eq. intros v.
  rewrite !lookup_accumulate_tile_empty.
  by rewrite (population_Permutation mask label _ _ v H).
Qed.

Lemma accumulate_merge mask label (cells1 cells2 : list Index) :
  merge_maps (accumulate_tile mask label ∅ cells1)
             (accumulate_tile mask label ∅ cells2)
  = accumulate_tile mask label ∅ (cells1 ++ cells2).
Proof.
  apply map_eq. intros v. unfold merge_maps.
  rewrite lookup_union_with, !lookup_accumulate_tile_empty, population_app.
  destruct (population mask label cells1 v), (population mask label cells2 v);
    simpl; try done. f_equal. lia.
Qed.

(** One partial map per tile, all merged: a single pass over the tiles. *)
Lemma merge_per_tile mask label (tiles : list (list Index)) :
  foldr merge_maps ∅ (map (accumulate_tile mask label ∅) tiles)
  = accumulate_tile mask label ∅ (concat tiles).
Proof.
  induction tiles as [|tile tiles IH]; [done|].
  simpl. by rewrite IH, accumulate_merge.
Qed.

Lemma merge_maps_comm (m1 m2 : gmap N nat) : merge_maps m1 m2 = merge_maps m2 m1.
Proof.
  apply map_eq. intros v. unfold merge_maps. rewrite !lookup_union_with.
  destruct (m1 !! v), (m2 !! v); simpl; try done. f_equal. lia.
Qed.

Lemma DoExecute_outcome split app :
  outcome (DoExecute split app) =
  if decide (field_selected app = []) then Raised (Fatal no_field_message)
  else
    match selected_field app with
    | None => Raised OutOfRange
    | Some fieldName =>
        match param_in app with
        | None => Raised (MissingParameter "in")
        | Some xs =>
            match param_vec app with
            | None => Raised (MissingParameter "vec")
            | Some shp =>
                match param_out app with
                | None => Raised (MissingParameter "out")
                | Some out =>
                    Done {| samplesPerClass :=
                              delete intNoData
                                (streamed split app xs
                                   (m_RasterizeClassFilter (vf_geometries shp) fieldName));
                            samplesPerVector :=
                              delete intNoData
                                (streamed split app xs
                                   (m_RasterizeFIDFilter (vf_geometries shp))) |}
                end
            end
        end
    end.
Proof.
  destruct (decide (field_selected app = [])) as [He|Hne].
  { by rewrite DoExecute_no_field. }
  destruct (selected_field app) as [fieldName|] eqn:Hsel;
    [destruct (param_in app) as [xs|] eqn:Hin;
     [destruct (param_vec app) as [shp|] eqn:Hvec;
      [destruct (param_out app) as [out|] eqn:Hout|]|]|].
  - by rewrite (DoExecute_run split app fieldName xs shp out).
  - unfold DoExecute, NoDataMask, selected_field in *.
    unfold GetParameter, gets, emit, raise. unfold mbind, mret in *.
    unfold app_bind, app_ret.
    rewrite decide_False by done. rewrite Hsel, Hin, Hvec.
    rewrite !StatsFilter_Update_run, Hout. done.
  - unfold DoExecute, NoDataMask, selected_field in *.
    unfold GetParameter, gets, emit, raise. unfold mbind, mret in *.
    unfold app_bind, app_ret.
    rewrite decide_False by done. rewrite Hsel, Hin, Hvec. done.
  - unfold DoExecute, NoDataMask, selected_field in *.
    unfold GetParameter, gets, emit, raise. unfold mbind, mret in *.
    unfold app_bind, app_ret.
    rewrite decide_False by done. rewrite Hsel, Hin. done.
  - unfold DoExecute, NoDataMask, selected_field in *.
    unfold GetParameter, gets, emit, raise. unfold mbind, mret in *.
    unfold app_bind, app_ret.
    rewrite decide_False by done. rewrite Hsel. done.
Qed.

Lemma streamed_covers_once split1 split2 app1 app2 xs f :
  covers_once split1 -> covers_once split2 ->
  streamed split1 app1 xs f = streamed split2 app2 xs f.
Proof.
  intros H1 H2. unfold streamed. apply accumulate_Permutation.
  by rewrite (H1 _ _), (H2 _ _).
Qed.

Lemma single_tile_covers_once : covers_once single_tile.
Proof. intros ram region. unfold single_tile. simpl. by rewrite app_nil_r. Qed.

(** C4: the population maps do not depend on the tiling.  Two sequences of
    tiles that cover the same cells exactly once give the same map; the maps
    of two parts of a cover, merged by key-wise summation (in either order),
    are the map of a single pass over all the cells, and so are the maps of
    the single tiles of a cover, merged one after the other; and with streaming
    managers that cover the region exactly once, the result of [DoExecute] is
    the same for any two memory budgets and any two ways of cutting tiles. *)
Theorem population_maps_do_not_depend_on_tiling
    (split1 split2 : Z -> Region -> list Region)
    (mask : Index -> bool) (label : Index -> LabelPixel) :
  covers_once split1 ->
  covers_once split2 ->
  (forall p1 p2 (tiles1 tiles2 : list Region) app,
      concat tiles1 ≡ₚ concat tiles2 ->
      outcome (stream_tiles p1 mask label tiles1 ∅ app)
      = outcome (stream_tiles p2 mask label tiles2 ∅ app))
  /\ (forall p (tilesA tilesB : list Region) (cells : Region) app,
        concat tilesA ++ concat tilesB ≡ₚ cells ->
        exists mA mB : gmap N nat,
          outcome (stream_tiles p mask label tilesA ∅ app) = Done mA
          /\ outcome (stream_tiles p mask label tilesB ∅ app) = Done mB
          /\ outcome (stream_tiles p mask label [cells] ∅ app)
             = Done (merge_maps mA mB)
          /\ merge_maps mA mB = merge_maps mB mA)
  /\ (forall p (tiles : list Region) (cells : Region) app,
        concat tiles ≡ₚ cells ->
        outcome (stream_tiles p mask label [cells] ∅ app)
        = Done (foldr merge_maps ∅ (map (accumulate_tile mask label ∅) tiles)))
  /\ (forall app ram1 ram2,
        outcome (DoExecute split1 (with_ram app ram1))
        = outcome (DoExecute split2 (with_ram app ram2))).
Proof.
  intros H1 H2. split; [|split; [|split]].
  - intros p1 p2 tiles1 tiles2 app Hperm. rewrite !stream_tiles_run.
    unfold outcome; simpl. f_equal. by apply accumulate_Permutation.
  - intros p tilesA tilesB cells app Hperm. rewrite !stream_tiles_run.
    do 2 eexists. split; [reflexivity|]. split; [reflexivity|].
    split; [|apply merge_maps_comm].
    unfold outcome; simpl. f_equal. rewrite accumulate_merge, app_nil_r.
    by apply accumulate_Permutation.
  - intros p tiles cells app Hperm. rewrite stream_tiles_run, merge_per_tile.
    unfold outcome; simpl. f_equal. rewrite app_nil_r.
    by apply accumulate_Permutation.
  - intros app ram1 ram2. rewrite !DoExecute_outcome.
    change (field_selected (with_ram app ram1)) with (field_selected app).
    change (field_selected (with_ram app ram2)) with (field_selected app).
    change (selected_field (with_ram app ram1)) with (selected_field app).
    change (selected_field (with_ram app ram2)) with (selected_field app).
    change (param_in (with_ram app ram1)) with (param_in app).
    change (param_in (with_ram app ram2)) with (param_in app).
    change (param_vec (with_ram app ram1)) with (param_vec app).
    change (param_vec (with_ram app ram2)) with (param_vec app).
    change (param_out (with_ram app ram1)) with (param_out app).
    change (param_out (with_ram app ram2)) with (param_out app).
    destruct (decide _); [done|].
    destruct (selected_field app); [|done].
    destruct (param_in app) as [xs|]; [|done].
    destruct (param_vec app) as [shp|]; [|done].
    destruct (param_out app); [|done].
    f_equal. f_equal; f_equal; by apply streamed_covers_once.
Qed.

Lemma population_maps_do_not_depend_on_tiling_witness :
  covers_once strip_split
  /\ covers_once single_tile
  /\ split_differs strip_split single_tile
  /\ outcome (DoExecute strip_split (with_ram Scenario.B 2))
     = outcome (DoExecute single_tile (with_ram Scenario.B 4096)).
Proof.
  split; [exact strip_split_covers_once|].
  split; [exact single_tile_covers_once|].
  split; [vm_compute; discriminate|].
  exact (proj2 (proj2 (proj2 (population_maps_do_not_depend_on_tiling
                         strip_split single_tile (fun _ => true) (fun _ => 0%N)
                         strip_split_covers_once single_tile_covers_once)))
               Scenario.B 2%Z 4096%Z).
Defined.

(* ===================================================================== *)
(** ** Rasterization: overlaps and uncovered cells *)
(* ===================================================================== *)

Lemma burn_uncovered f idx (gs : list Geometry) : forall pixel,
  (forall g, g ∈ gs -> covers g idx = false) ->
  fold_left (burn_geometry f idx) gs pixel = pixel.
Proof.
  induction gs as [|g gs IH]; intros pixel H; [done|].
  simpl. unfold burn_geometry at 2. rewrite (H g) by (by left).
  apply IH. intros g' Hg'. apply H. by right.
Qed.

Lemma rasterize_last f idx earlier g later v :
  VectorData f = earlier ++ g :: later ->
  covers g idx = true ->
  burn_value f g = Some v ->
  (forall g', g' ∈ later -> covers g' idx = false) ->
  rasterize f idx = v.
Proof.
  intros Hf Hc Hb Hl. unfold rasterize. rewrite Hf, fold_left_app. simpl.
  rewrite burn_uncovered by done. unfold burn_geometry. by rewrite Hc, Hb.
Qed.

Lemma rasterize_uncovered f idx :
  (forall g, g ∈ VectorData f -> covers g idx = false) ->
  rasterize f idx = BackgroundValue f.
Proof. intros H. unfold rasterize. by apply burn_uncovered. Qed.

Lemma burn_sentinel_iff f idx (gs : list Geometry) : forall pixel,
  (forall g, g ∈ gs -> exists v, burn_value f g = Some v /\ v ≠ intNoData) ->
  fold_left (burn_geometry f idx) gs pixel = intNoData
  <-> pixel = intNoData /\ covered gs idx = false.
Proof.
  induction gs as [|g gs IH]; intros pixel H; [simpl; tauto|].
  simpl. rewrite IH by (intros g' Hg'; apply H; by right).
  destruct (H g) as (v & Hv & Hne); [by left|].
  unfold burn_geometry. rewrite Hv.
  destruct (covers g idx); simpl; [|tauto].
  split; [intros [? _]; done|intros [_ ?]; done].
Qed.

Lemma rasterize_sentinel_iff f idx :
  BackgroundValue f = intNoData ->
  (forall g, g ∈ VectorData f -> exists v, burn_value f g = Some v /\ v ≠ intNoData) ->
  rasterize f idx ≠ intNoData <-> covered (VectorData f) idx = true.
Proof.
  intros Hb Hg. unfold rasterize. rewrite burn_sentinel_iff by done.
  rewrite Hb. destruct (covered (VectorData f) idx); split; intros H; try done.
  - intros [_ ?]. done.
  - exfalso. by apply H.
Qed.

(** C5: when several geometries cover a cell, the last one in input order
    wins in both label rasters: the identifier raster holds its identifier
    and the class raster its class, so a valid pixel at that cell adds one to
    the entry of that identifier and to the entry of that class, and to no
    other entry. *)
Theorem last_geometry_wins
    (earlier later : list Geometry) (g : Geometry) (fieldName : string)
    (cls : LabelPixel) (idx : Index) (mask : Index -> bool) (m : gmap N nat) :
  covers g idx = true ->
  fieldName ≠ "________" ->
  attributes g !! fieldName = Some cls ->
  (forall g', g' ∈ later -> covers g' idx = false) ->
  mask idx = true ->
  rasterize (m_RasterizeFIDFilter (earlier ++ g :: later)) idx = gid g
  /\ rasterize (m_RasterizeClassFilter (earlier ++ g :: later) fieldName) idx = cls
  /\ accumulate_cell mask
       (rasterize (m_RasterizeFIDFilter (earlier ++ g :: later))) m idx
     = <[gid g := S (default 0 (m !! gid g))]> m
  /\ accumulate_cell mask
       (rasterize (m_RasterizeClassFilter (earlier ++ g :: later) fieldName)) m idx
     = <[cls := S (default 0 (m !! cls))]> m.
Proof.
  intros Hc Hname Hcls Hlater Hmask.
  assert (Hfid : rasterize (m_RasterizeFIDFilter (earlier ++ g :: later)) idx = gid g).
  { by apply (rasterize_last _ idx earlier g later). }
  assert (Hclass : rasterize (m_RasterizeClassFilter (earlier ++ g :: later) fieldName)
                     idx = cls).
  { apply (rasterize_last _ idx earlier g later); try done.
    unfold burn_value. simpl. by rewrite decide_False. }
  rewrite !accumulate_cell_valid by done. by rewrite Hfid, Hclass.
Qed.

Lemma last_geometry_wins_witness :
  gid ScenarioD.later_one = 9%N
  /\ attributes ScenarioD.later_one !! "label" = Some 3%N
  /\ rasterize (m_RasterizeFIDFilter (ScenarioD.earlier ++ [ScenarioD.later_one]))
       (0, 0) = 9%N
  /\ rasterize (m_RasterizeClassFilter (ScenarioD.earlier ++ [ScenarioD.later_one])
                  "label") (0, 0) = 3%N
  /\ outcome (DoExecute strip_split Scenario.D)
     = Done {| samplesPerClass := {[ 3%N := 1 ]};
               samplesPerVector := {[ 9%N := 1 ]} |}.
Proof.
  assert (Hname : "label" ≠ "________") by discriminate.
  pose proof (last_geometry_wins ScenarioD.earlier [] ScenarioD.later_one "label"
                3%N (0, 0) (fun _ => true) ∅ eq_refl Hname eq_refl
                (fun g' H => False_ind _ (not_elem_of_nil g' H)) eq_refl)
    as (Hfid & Hclass & _).
  split; [reflexivity|]. split; [reflexivity|].
  split; [exact Hfid|]. split; [exact Hclass|].
  vm_compute. reflexivity.
Defined.

(** C6, as stated, fails: the background value [DoExecute] gives both
    rasterizers is the sentinel, not 0, so the cell of an image without any
    geometry holds 4294967295 in both label rasters. *)
Lemma background_value_is_not_zero :
  BackgroundValue (m_RasterizeFIDFilter []) = 4294967295%N
  /\ BackgroundValue (m_RasterizeClassFilter [] "label") = 4294967295%N
  /\ rasterize (m_RasterizeFIDFilter []) (0, 0) ≠ 0%N
  /\ rasterize (m_RasterizeClassFilter [] "label") (0, 0) ≠ 0%N
  /\ ~ background_zero_claim.
Proof.
  split; [reflexivity|]. split; [reflexivity|].
  split; [discriminate|]. split; [discriminate|].
  intros H. destruct (H true [] "label" (0, 0)) as [Hfid _].
  - intros g Hg. by apply not_elem_of_nil in Hg.
  - discriminate Hfid.
Qed.

(** C6, amended: a cell that no geometry covers holds the no-data sentinel in
    both label rasters, because [DoExecute] sets the background value of both
    rasterizers to the sentinel; 0 is their default burn value, and it
    differs from the sentinel. *)
Theorem uncovered_cell_is_sentinel
    (shp : list Geometry) (fieldName : string) (idx : Index) :
  (forall g, g ∈ shp -> covers g idx = false) ->
  rasterize (m_RasterizeFIDFilter shp) idx = intNoData
  /\ rasterize (m_RasterizeClassFilter shp fieldName) idx = intNoData
  /\ BackgroundValue (m_RasterizeFIDFilter shp) = intNoData
  /\ BackgroundValue (m_RasterizeClassFilter shp fieldName) = intNoData
  /\ DefaultBurnValue (m_RasterizeFIDFilter shp) = 0%N
  /\ DefaultBurnValue (m_RasterizeClassFilter shp fieldName) = 0%N
  /\ intNoData ≠ 0%N.
Proof.
  intros H. rewrite !rasterize_uncovered by done. done.
Qed.

Lemma uncovered_cell_is_sentinel_witness :
  Scenario.left_half (7, 2) = false
  /\ rasterize (m_RasterizeFIDFilter [Scenario.polygon Scenario.left_half 1 5])
       (7, 2) = 4294967295%N
  /\ rasterize (m_RasterizeClassFilter [Scenario.polygon Scenario.left_half 1 5]
                  "label") (7, 2) = 4294967295%N.
Proof.
  assert (H : forall g, g ∈ [Scenario.polygon Scenario.left_half 1 5] ->
                        covers g (7, 2) = false).
  { intros g Hg. apply list_elem_of_singleton in Hg. by subst g. }
  pose proof (uncovered_cell_is_sentinel _ "label" (7, 2) H) as (Hfid & Hclass & _).
  split; [reflexivity|]. split; [exact Hfid|exact Hclass].
Defined.

(* ===================================================================== *)
(** ** The two sums of counts *)
(* ===================================================================== *)

Lemma total_empty : total (∅ : gmap N nat) = 0.
Proof. unfold total. by rewrite map_fold_empty. Qed.

Lemma valid_cells_split mask label (cells : list Index) v :
  length (filter (fun idx => mask idx = true) cells)
  = length (filter (fun idx => mask idx = true /\ label idx ≠ v) cells)
    + population mask label cells v.
Proof.
  unfold population. induction cells as [|idx cells IH]; [done|].
  rewrite !filter_cons.
  destruct (mask idx) eqn:Hm, (decide (label idx = v)) as [Hl|Hl].
  - rewrite decide_True, decide_False, decide_True by intuition congruence.
    simpl. lia.
  - rewrite decide_True, decide_True, decide_False by intuition congruence.
    simpl. lia.
  - rewrite decide_False, decide_False, decide_False by intuition congruence.
    lia.
  - rewrite decide_False, decide_False, decide_False by intuition congruence.
    lia.
Qed.

(** After the sentinel entry is removed, the counts sum to the number of
    valid cells whose label is not the sentinel. *)
Lemma total_delete_accumulate mask label (cells : list Index) :
  total (delete intNoData (accumulate_tile mask label ∅ cells))
  = length (filter (fun idx => mask idx = true /\ label idx ≠ intNoData) cells).
Proof.
  pose proof (total_delete (accumulate_tile mask label ∅ cells) intNoData) as H.
  rewrite total_accumulate_tile, total_empty in H.
  rewrite lookup_accumulate_tile_empty in H.
  rewrite (valid_cells_split mask label cells intNoData) in H.
  destruct (population mask label cells intNoData); simpl in H; lia.
Qed.

Lemma total_streamed split app xs f :
  covers_once split ->
  BackgroundValue f = intNoData ->
  (forall g, g ∈ VectorData f -> exists v, burn_value f g = Some v /\ v ≠ intNoData) ->
  total (delete intNoData (streamed split app xs f))
  = valid_covered xs (VectorData f).
Proof.
  intros Hsplit Hb Hg. unfold streamed, valid_covered.
  rewrite total_delete_accumulate, (Hsplit _ _).
  f_equal. apply list_filter_iff. intros idx.
  by rewrite rasterize_sentinel_iff.
Qed.

(** C3, as stated, fails: a polygon whose class code is the reserved value is
    counted under its identifier, and its class entry is removed with the
    no-data entries, so the two sums are 1 and 0. *)
Lemma sample_sums_counterexample :
  every_geometry_has_a_class
    [Scenario.polygon (fun _ => true) 1 4294967295] "label"
  /\ outcome (DoExecute strip_split Collision.app)
     = Done {| samplesPerClass := ∅; samplesPerVector := {[ 1%N := 1 ]} |}
  /\ total ({[ 1%N := 1 ]} : gmap N nat) = 1
  /\ total (∅ : gmap N nat) = 0
  /\ ~ sample_sums_claim.
Proof.
  assert (Hclass : every_geometry_has_a_class
                     [Scenario.polygon (fun _ => true) 1 4294967295] "label").
  { intros g Hg. apply list_elem_of_singleton in Hg. subst g. by eexists. }
  assert (Hrun : outcome (DoExecute strip_split Collision.app)
                 = Done {| samplesPerClass := ∅; samplesPerVector := {[ 1%N := 1 ]} |}).
  { vm_compute. reflexivity. }
  assert (H1 : total ({[ 1%N := 1 ]} : gmap N nat) = 1) by (vm_compute; reflexivity).
  split; [exact Hclass|]. split; [exact Hrun|]. split; [exact H1|].
  split; [apply total_empty|].
  intros Hclaim.
  destruct (Hclaim strip_split Collision.app "label" _ _ _ _
              strip_split_covers_once eq_refl eq_refl eq_refl eq_refl Hclass Hrun)
    as [Hsum _].
  simpl in Hsum. rewrite H1, total_empty in Hsum. discriminate.
Qed.

(** C3, amended: when every geometry has a class and neither an identifier
    nor a class code equals the reserved no-data value, the counts of
    "samplesPerVector" and of "samplesPerClass" have the same sum, the number
    of pixels that are valid and covered by some geometry.  Both statistics
    filters read the same validity mask. *)
Theorem sample_sums_agree
    (split : Z -> Region -> list Region) (app : Application)
    (fieldName : string) (xs : Image) (shp : VectorFile) (out : string) :
  covers_once split ->
  selected_field app = Some fieldName ->
  param_in app = Some xs ->
  param_vec app = Some shp ->
  param_out app = Some out ->
  (forall g, g ∈ vf_geometries shp ->
     gid g ≠ intNoData
     /\ exists cls, attributes g !! fieldName = Some cls /\ cls ≠ intNoData) ->
  exists stats,
    outcome (DoExecute split app) = Done stats
    /\ total (samplesPerVector stats) = total (samplesPerClass stats)
    /\ total (samplesPerClass stats) = valid_covered xs (vf_geometries shp).
Proof.
  intros Hsplit Hsel Hin Hvec Hout Hg.
  rewrite (DoExecute_run split app fieldName xs shp out) by done.
  eexists. split; [reflexivity|]. simpl.
  rewrite !total_streamed; try done.
  - intros g Hin'. destruct (Hg g Hin') as (Hgid & cls & Hcls & Hne).
    unfold burn_value. simpl. destruct (decide _); eauto.
  - intros g Hin'. destruct (Hg g Hin') as (Hgid & _).
    unfold burn_value. simpl. eauto.
Qed.

Lemma sample_sums_agree_witness :
  covers_once strip_split
  /\ selected_field Scenario.B = Some "label"
  /\ exists stats,
       outcome (DoExecute strip_split Scenario.B) = Done stats
       /\ total (samplesPerVector stats) = total (samplesPerClass stats)
       /\ total (samplesPerClass stats) = 50.
Proof.
  assert (Hg : forall g,
             g ∈ [Scenario.polygon Scenario.left_half 1 5;
                  Scenario.polygon Scenario.right_half 2 7] ->
             gid g ≠ intNoData
             /\ exists cls, attributes g !! "label" = Some cls /\ cls ≠ intNoData).
  { intros g Hin. apply elem_of_cons in Hin as [->|Hin].
    - split; [discriminate|]. exists 5%N. split; [reflexivity|discriminate].
    - apply list_elem_of_singleton in Hin. subst g.
      split; [discriminate|]. exists 7%N. split; [reflexivity|discriminate]. }
  destruct (sample_sums_agree strip_split Scenario.B "label" _ _ _
              strip_split_covers_once eq_refl eq_refl eq_refl eq_refl Hg)
    as (stats & Ho & Hsum & Htotal).
  split; [exact strip_split_covers_once|]. split; [reflexivity|].
  exists stats. split; [exact Ho|]. split; [exact Hsum|].
  rewrite Htotal. vm_compute. reflexivity.
Defined.

(* ===================================================================== *)
(** ** Scenarios A and B of the specification, run *)
(* ===================================================================== *)

(** Scenario A: two polygons covering the left and the right half of a
    10 by 10 image without no-data. *)
Example scenario_A :
  outcome (DoExecute strip_split Scenario.A)
  = Done {| samplesPerClass := {[ 5%N := 50; 7%N := 50 ]};
            samplesPerVector := {[ 1%N := 50; 2%N := 50 ]} |}.
Proof. vm_compute. reflexivity. Qed.

(** Scenario B: the pixels of the left half are no-data. *)
Example scenario_B :
  outcome (DoExecute strip_split Scenario.B)
  = Done {| samplesPerClass := {[ 7%N := 50 ]};
            samplesPerVector := {[ 2%N := 50 ]} |}.
Proof. vm_compute. reflexivity. Qed.

(** The same scenario with every tiling: one pass over the whole region. *)
Example scenario_B_single_tile :
  outcome (DoExecute single_tile Scenario.B)
  = outcome (DoExecute strip_split Scenario.B).
Proof. vm_compute. reflexivity. Qed.

(* ===================================================================== *)
(** ** Further properties of the sanitized key *)
(* ===================================================================== *)

(** The characters of the key, on lists. *)
Lemma chars_sanitized_key item :
  chars (Chars.sanitized_key item)
  = map Chars.tolower (List.filter Chars.isalnum (chars item)).
Proof.
  unfold chars. rewrite CharsFacts.sanitized_key_spec.
  apply String.list_ascii_of_string_of_list_ascii.
Qed.

Lemma chars_append (a b : string) : chars (a +:+ b) = chars a ++ chars b.
Proof.
  unfold chars. induction a as [|c a IH]; [done|].
  simpl. by rewrite IH.
Qed.

Lemma chars_inj (a b : string) : chars a = chars b -> a = b.
Proof.
  unfold chars. intros H.
  rewrite <- (String.string_of_list_ascii_of_string a),
          <- (String.string_of_list_ascii_of_string b).
  by rewrite H.
Qed.

Ltac each_ascii c :=
  destruct c as [[] [] [] [] [] [] [] []]; vm_compute; try done.

Lemma tolower_isalnum c : Chars.isalnum (Chars.tolower c) = Chars.isalnum c.
Proof. each_ascii c. Qed.

Lemma tolower_tolower c : Chars.tolower (Chars.tolower c) = Chars.tolower c.
Proof. each_ascii c. Qed.

Lemma isalnum_tolower_key c :
  Chars.isalnum c = true -> is_key_char (Chars.tolower c) = true.
Proof. each_ascii c. Qed.

Lemma key_char_isalnum c : is_key_char c = true -> Chars.isalnum c = true.
Proof. each_ascii c. Qed.

Lemma key_char_tolower c : is_key_char c = true -> Chars.tolower c = c.
Proof. each_ascii c. Qed.

Lemma filter_isalnum_length (l : list ascii) :
  length (List.filter Chars.isalnum l) <= length l.
Proof.
  induction l as [|c l IH]; [done|]. simpl.
  destruct (Chars.isalnum c); simpl; lia.
Qed.

Lemma key_chars_fixed (l : list ascii) :
  Forall (fun c => is_key_char c = true) l ->
  map Chars.tolower (List.filter Chars.isalnum l) = l.
Proof.
  induction 1 as [|c l Hc _ IH]; [done|]. simpl.
  rewrite (key_char_isalnum c Hc). simpl.
  by rewrite (key_char_tolower c Hc), IH.
Qed.

Lemma key_chars_alphabet (l : list ascii) :
  Forall (fun c => is_key_char c = true)
    (map Chars.tolower (List.filter Chars.isalnum l)).
Proof.
  induction l as [|c l IH]; [constructor|]. simpl.
  destruct (Chars.isalnum c) eqn:Hc; [|done]. simpl.
  constructor; [by apply isalnum_tolower_key|done].
Qed.

(** X1: the key holds nothing but decimal digits and lower-case letters (so no
    dot, no space, no upper-case letter), and is never longer than the field
    name. *)
Theorem sanitized_key_alphabet (item : string) :
  Forall (fun c => is_key_char c = true) (chars (Chars.sanitized_key item))
  /\ ("."%char ∉ chars (Chars.sanitized_key item))
  /\ length (chars (Chars.sanitized_key item)) <= length (chars item).
Proof.
  rewrite chars_sanitized_key. split; [apply key_chars_alphabet|]. split.
  - intros Hdot. pose proof (key_chars_alphabet (chars item)) as H.
    rewrite Forall_forall in H. by apply H in Hdot.
  - rewrite length_map. apply filter_isalnum_length.
Qed.

(** X2: sanitizing is idempotent, and a name made of decimal digits and
    lower-case letters only is its own key. *)
Theorem sanitized_key_idempotent (item : string) :
  Chars.sanitized_key (Chars.sanitized_key item) = Chars.sanitized_key item
  /\ (Forall (fun c => is_key_char c = true) (chars item) ->
      Chars.sanitized_key item = item).
Proof.
  split.
  - apply chars_inj. rewrite (chars_sanitized_key (Chars.sanitized_key item)).
    apply key_chars_fixed. rewrite chars_sanitized_key.
    apply key_chars_alphabet.
  - intros H. apply chars_inj. rewrite chars_sanitized_key.
    by apply key_chars_fixed.
Qed.

(** X3: the key ignores the characters that are not alphanumeric and the case of
    the letters: dropping such a character from a field name, or lower-casing
    one of its letters, gives the same key.  Two fields whose names differ
    only in that way get the same choice key. *)
Theorem sanitized_key_ignores_case_and_punctuation
    (a b : string) (c : ascii) :
  Chars.IsNotAlphaNum c = true ->
  Chars.sanitized_key (a +:+ String c b) = Chars.sanitized_key (a +:+ b)
  /\ (forall c' : ascii,
        Chars.sanitized_key (a +:+ String (Chars.tolower c') b)
        = Chars.sanitized_key (a +:+ String c' b)).
Proof.
  intros Hc. split.
  - apply chars_inj. rewrite !chars_sanitized_key, !chars_append.
    change (chars (String c b)) with (c :: chars b).
    rewrite !List.filter_app. simpl.
    unfold Chars.IsNotAlphaNum in Hc. apply negb_true_iff in Hc.
    by rewrite Hc.
  - intros c'. apply chars_inj. rewrite !chars_sanitized_key, !chars_append.
    change (chars (String (Chars.tolower c') b))
      with (Chars.tolower c' :: chars b).
    change (chars (String c' b)) with (c' :: chars b).
    rewrite !List.filter_app. simpl. rewrite tolower_isalnum.
    destruct (Chars.isalnum c'); [|done].
    rewrite !map_app. simpl. by rewrite tolower_tolower.
Qed.

Lemma sanitized_key_ignores_case_and_punctuation_witness :
  Chars.IsNotAlphaNum "_"%char = true
  /\ Chars.sanitized_key "Class_ID" = Chars.sanitized_key "ClassID"
  /\ Chars.sanitized_key "ClassID" = Chars.sanitized_key (String "C" "lassID").
Proof.
  destruct (sanitized_key_ignores_case_and_punctuation "Class" "ID" "_"%char
              eq_refl) as [Hdrop _].
  split; [reflexivity|]. split; [exact Hdrop|reflexivity].
Defined.

(** X4: the key is empty exactly when the field name has no alphanumeric
    character; the choice of such a field is then registered under the bare
    prefix "field.". *)
Theorem sanitized_key_empty (item : string) :
  (Chars.sanitized_key item = ""
   <-> Forall (fun c => Chars.IsNotAlphaNum c = true) (chars item))
  /\ (Forall (fun c => Chars.IsNotAlphaNum c = true) (chars item) ->
      forall fieldType app,
        is_class_field_type fieldType = true ->
        field_choices
          (final_state
             (AddFieldChoices [ {| GetNameRef := item; GetType := fieldType |} ] app))
        = field_choices app ++ [("field.", item)]).
Proof.
  assert (Hiff : Chars.sanitized_key item = ""
                 <-> Forall (fun c => Chars.IsNotAlphaNum c = true) (chars item)).
  { split.
    - intros H. apply (f_equal chars) in H. rewrite chars_sanitized_key in H.
      change (chars "") with (@nil ascii) in H.
      induction (chars item) as [|c l IH]; [constructor|].
      simpl in H. unfold Chars.IsNotAlphaNum.
      destruct (Chars.isalnum c) eqn:Hc; [discriminate|].
      constructor; [by rewrite Hc|by apply IH].
    - intros H. apply chars_inj. rewrite chars_sanitized_key.
      change (chars "") with (@nil ascii).
      induction H as [|c l Hc _ IH]; [done|]. simpl.
      unfold Chars.IsNotAlphaNum in Hc. apply negb_true_iff in Hc.
      by rewrite Hc. }
  split; [exact Hiff|].
  intros H fieldType app Htype. rewrite AddFieldChoices_run.
  unfold final_state, offered_choices. simpl. rewrite Htype. simpl.
  apply Hiff in H. by rewrite H.
Qed.

(* ===================================================================== *)
(** ** Further properties of DoUpdateParameters *)
(* ===================================================================== *)

Lemma with_choices_same app : with_choices app (field_choices app) = app.
Proof. by destruct app. Qed.

Lemma extension_check_trace out :
  (extension_check out).1 = []
  \/ exists msg, (extension_check out).1 = [EvLogFatal msg].
Proof.
  unfold extension_check. destruct out as [out|]; [|by left]. simpl.
  destruct (decide _); [right; by eexists|by left].
Qed.

Lemma extension_check_done out :
  (extension_check out).2 = Done tt
  <-> out = None
      \/ exists path, out = Some path
         /\ Chars.LowerCase (Chars.GetFilenameLastExtension path) = ".xml".
Proof.
  unfold extension_check. destruct out as [path|]; simpl.
  - destruct (decide _) as [Hne|Heq]; simpl.
    + split; [done|]. intros [H|(p & H & Hp)]; [done|].
      injection H as <-. done.
    + split; [|done]. intros _. right. exists path. split; [done|].
      by destruct (decide (Chars.LowerCase (Chars.GetFilenameLastExtension path)
                           = ".xml")).
  - split; [by left|done].
Qed.

(** With a listable vector file and an accepted output path the method
    completes. *)
Lemma DoUpdateParameters_outcome_listable app :
  vec_listable app ->
  outcome (DoUpdateParameters app) = Done tt <-> out_accepted app.
Proof.
  intros Hl. rewrite DoUpdateParameters_run. unfold out_accepted.
  rewrite <- extension_check_done.
  destruct Hl as [Hnone|[f Hf]].
  - by rewrite Hnone.
  - rewrite Hf. by destruct (param_vec app).
Qed.

(** X5: running [DoUpdateParameters] again on the state it leaves changes
    nothing: the choices are cleared before they are listed, so they do not
    pile up, and the events and the outcome are those of the first run. *)
Theorem DoUpdateParameters_idempotent (app : Application) :
  DoUpdateParameters (final_state (DoUpdateParameters app))
  = DoUpdateParameters app.
Proof.
  rewrite (DoUpdateParameters_run app).
  destruct (param_vec app) as [vf|] eqn:Hvec.
  - destruct (first_feature app) as [f|] eqn:Hf; unfold final_state; simpl.
    + rewrite DoUpdateParameters_run. unfold listed. rewrite !Hf.
      unfold first_feature in *. simpl. rewrite Hvec in *.
      destruct (vf_layers vf) as [|[|f' fs] ls]; try done.
      injection Hf as ->. done.
    + rewrite DoUpdateParameters_run, Hvec, Hf. done.
  - unfold final_state; simpl. rewrite DoUpdateParameters_run, Hvec. done.
Qed.

(** X6: whatever the parameters, [DoUpdateParameters] performs no analysis, opens
    the vector file once when "vec" has a value and never otherwise, logs at
    most one fatal message, and leaves the values of "in", "vec", "out" and
    "ram" as they were; when "vec" has no value it leaves the whole
    application as it was. *)
Theorem DoUpdateParameters_effects (app : Application) :
  no_analysis (trace (DoUpdateParameters app))
  /\ param_in (final_state (DoUpdateParameters app)) = param_in app
  /\ param_vec (final_state (DoUpdateParameters app)) = param_vec app
  /\ param_out (final_state (DoUpdateParameters app)) = param_out app
  /\ param_ram (final_state (DoUpdateParameters app)) = param_ram app
  /\ (param_vec app = None -> final_state (DoUpdateParameters app) = app)
  /\ length (List.filter is_open_vector_event (trace (DoUpdateParameters app)))
     = match param_vec app with Some _ => 1 | None => 0 end
  /\ length (List.filter (fun e => match e with EvLogFatal _ => true | _ => false end)
               (trace (DoUpdateParameters app))) <= 1.
Proof.
  rewrite DoUpdateParameters_run. unfold trace, final_state, listed.
  destruct (extension_check_trace (param_out app)) as [Ht|[msg Ht]];
    destruct (param_vec app) as [vf|] eqn:Hvec;
    [destruct (first_feature app) as [f|]| |destruct (first_feature app) as [f|]|];
    simpl; rewrite ?Ht; simpl;
    repeat split; try done; try lia; try apply with_choices_same;
    by destruct app.
Qed.

(** X7: when the field listing can run, [DoUpdateParameters] completes exactly
    when the output path is absent or has the extension ".xml" up to case. *)
Theorem DoUpdateParameters_completes_iff (app : Application) :
  vec_listable app ->
  outcome (DoUpdateParameters app) = Done tt <-> out_accepted app.
Proof. apply DoUpdateParameters_outcome_listable. Qed.

Lemma DoUpdateParameters_completes_iff_witness :
  vec_listable Scenario.A
  /\ param_out Scenario.A = Some "polygonStat.xml"
  /\ outcome (DoUpdateParameters Scenario.A) = Done tt
  /\ outcome (DoUpdateParameters (with_selection ScenarioC.listing [])) = Done tt.
Proof.
  assert (HA : vec_listable Scenario.A) by (right; by eexists).
  assert (HC : vec_listable (with_selection ScenarioC.listing []))
    by (right; by eexists).
  split; [exact HA|]. split; [reflexivity|]. split.
  - apply (DoUpdateParameters_completes_iff Scenario.A HA).
    right. exists "polygonStat.xml". split; reflexivity.
  - apply (DoUpdateParameters_completes_iff _ HC). by left.
Defined.




(* ===================================================================== *)
(** ** Further properties of DoExecute *)
(* ===================================================================== *)

(** [DoExecute] on any state: events, final state and outcome. *)
Lemma DoExecute_eval split app :
  DoExecute split app =
  if decide (field_selected app = []) then
    ([EvLogFatal no_field_message], app, Raised (Fatal no_field_message))
  else
    match selected_field app with
    | None => ([], app, Raised OutOfRange)
    | Some fieldName =>
        match param_in app with
        | None => ([EvSetupDEM], app, Raised (MissingParameter "in"))
        | Some xs =>
            match param_vec app with
            | None => ([EvSetupDEM; EvGetParameterImage], app,
                       Raised (MissingParameter "vec"))
            | Some shp =>
                match param_out app with
                | None => (analysis_events split app xs, app,
                           Raised (MissingParameter "out"))
                | Some out =>
                    (analysis_events split app xs ++ [EvWriteStatistics out],
                     app,
                     Done {| samplesPerClass :=
                               delete intNoData
                                 (streamed split app xs
                                    (m_RasterizeClassFilter (vf_geometries shp) fieldName));
                             samplesPerVector :=
                               delete intNoData
                                 (streamed split app xs
                                    (m_RasterizeFIDFilter (vf_geometries shp))) |})
                end
            end
        end
    end.
Proof.
  destruct (decide (field_selected app = [])) as [He|Hne].
  { by rewrite DoExecute_no_field. }
  unfold analysis_events.
  destruct (selected_field app) as [fieldName|] eqn:Hsel;
    [destruct (param_in app) as [xs|] eqn:Hin;
     [destruct (param_vec app) as [shp|] eqn:Hvec;
      [destruct (param_out app) as [out|] eqn:Hout|]|]|].
  - rewrite (DoExecute_run split app fieldName xs shp out) by done.
    by rewrite <- !app_assoc.
  - unfold DoExecute, NoDataMask, selected_field in *.
    unfold GetParameter, gets, emit, raise. unfold mbind, mret in *.
    unfold app_bind, app_ret.
    rewrite decide_False by done. rewrite Hsel, Hin, Hvec.
    rewrite !StatsFilter_Update_run, Hout. simpl. by rewrite app_nil_r.
  - unfold DoExecute, NoDataMask, selected_field in *.
    unfold GetParameter, gets, emit, raise. unfold mbind, mret in *.
    unfold app_bind, app_ret.
    rewrite decide_False by done. rewrite Hsel, Hin, Hvec. done.
  - unfold DoExecute, NoDataMask, selected_field in *.
    unfold GetParameter, gets, emit, raise. unfold mbind, mret in *.
    unfold app_bind, app_ret.
    rewrite decide_False by done. rewrite Hsel, Hin. done.
  - unfold DoExecute, NoDataMask, selected_field in *.
    unfold GetParameter, gets, emit, raise. unfold mbind, mret in *.
    unfold app_bind, app_ret.
    rewrite decide_False by done. rewrite Hsel. done.
Qed.

Lemma no_write_in_tiles p (tiles : list Region) :
  List.filter is_write_event (map (EvStreamTile p) tiles) = [].
Proof. induction tiles as [|tile tiles IH]; [done|]. simpl. exact IH. Qed.

Lemma no_write_in_analysis split app xs :
  List.filter is_write_event (analysis_events split app xs) = [].
Proof.
  unfold analysis_events. rewrite !List.filter_app, !no_write_in_tiles. done.
Qed.

(** X9: of the selected items [DoExecute] uses the first one only: the events
    and the outcome are those of the run in which it is the only selected
    item. *)
Theorem only_first_selected_item_counts
    (split : Z -> Region -> list Region) (app : Application)
    (i : nat) (others : list nat) :
  field_selected app = i :: others ->
  trace (DoExecute split app)
  = trace (DoExecute split (with_selection app [i]))
  /\ outcome (DoExecute split app)
     = outcome (DoExecute split (with_selection app [i])).
Proof.
  intros Hsel. rewrite !DoExecute_eval.
  assert (Hfield : selected_field (with_selection app [i]) = selected_field app).
  { unfold selected_field. simpl. by rewrite Hsel. }
  rewrite Hfield.
  change (param_in (with_selection app [i])) with (param_in app).
  change (param_vec (with_selection app [i])) with (param_vec app).
  change (param_out (with_selection app [i])) with (param_out app).
  change (field_selected (with_selection app [i])) with [i].
  rewrite Hsel. rewrite !decide_False by done.
  destruct (selected_field app); [|done].
  destruct (param_in app); [|done].
  destruct (param_vec app); [|done].
  destruct (param_out app); done.
Qed.

Lemma only_first_selected_item_counts_witness :
  field_selected (with_selection Scenario.B [0; 7; 3]) = [0; 7; 3]
  /\ outcome (DoExecute strip_split (with_selection Scenario.B [0; 7; 3]))
     = outcome (DoExecute strip_split
                  (with_selection (with_selection Scenario.B [0; 7; 3]) [0])).
Proof.
  split; [reflexivity|].
  exact (proj2 (only_first_selected_item_counts strip_split
                  (with_selection Scenario.B [0; 7; 3]) 0 [7; 3] eq_refl)).
Defined.

(** X10: [DoExecute] writes the statistics only when everything before succeeded:
    a run that ends in an error has written nothing, and a run that
    completes has, in this order, set up the elevation, taken the image and
    the vector data, reprojected, streamed the tiles of the identifier pass,
    streamed the same tiles for the class pass, and written once, to the
    path of "out".  The application object is left as it was. *)
Theorem statistics_are_written_last_or_never
    (split : Z -> Region -> list Region) (app : Application) :
  match outcome (DoExecute split app) with
  | Raised _ => List.filter is_write_event (trace (DoExecute split app)) = []
  | Done _ =>
      exists xs out,
        param_in app = Some xs /\ param_out app = Some out
        /\ trace (DoExecute split app)
           = [EvSetupDEM; EvGetParameterImage; EvGetParameterVectorData;
              EvReproject]
             ++ map (EvStreamTile SamplesPerVector)
                  (split (param_ram app) (LargestPossibleRegion xs))
             ++ map (EvStreamTile SamplesPerClass)
                  (split (param_ram app) (LargestPossibleRegion xs))
             ++ [EvWriteStatistics out]
  end
  /\ final_state (DoExecute split app) = app.
Proof.
  rewrite DoExecute_eval.
  destruct (decide _); [done|].
  destruct (selected_field app); [|done].
  destruct (param_in app) as [xs|]; [|done].
  destruct (param_vec app); [|done].
  destruct (param_out app) as [out|]; unfold outcome, trace, final_state; simpl.
  - split; [|done]. exists xs, out. split; [done|]. split; [done|].
    unfold analysis_events. by rewrite <- !app_assoc.
  - split; [|done].
    change (List.filter is_write_event (analysis_events split app xs) = []).
    apply no_write_in_analysis.
Qed.



(* ===================================================================== *)
(** ** DoInit agrees with the two methods *)
(* ===================================================================== *)


(* ===================================================================== *)
(** ** Which output paths pass the extension check *)
(* ===================================================================== *)

Lemma rfind_from_shift c (s : list ascii) : forall i last,
  Chars.rfind_from c s i last
  = match Chars.rfind_from c s 0 None with
    | Some p => Some (i + p)
    | None => last
    end.
Proof.
  induction s as [|x s IH]; intros i last; [done|].
  simpl. rewrite (IH (S i)), (IH 1).
  destruct (Chars.rfind_from c s 0 None) as [p|].
  - f_equal. lia.
  - destruct (decide (x = c)); [f_equal; lia|done].
Qed.

Lemma rfind_absent c (s : list ascii) : c ∉ s -> Chars.rfind c s = None.
Proof.
  unfold Chars.rfind. induction s as [|x s IH]; intros H; [done|].
  apply not_elem_of_cons in H as [Hne Hs].
  simpl. rewrite rfind_from_shift, (IH Hs). by rewrite decide_False.
Qed.

Lemma rfind_last c (pre suf : list ascii) :
  c ∉ suf -> Chars.rfind c (pre ++ c :: suf) = Some (length pre).
Proof.
  intros H. unfold Chars.rfind. induction pre as [|x pre IH]; simpl.
  - rewrite rfind_from_shift. fold (Chars.rfind c suf).
    rewrite rfind_absent by done. by rewrite decide_True.
  - rewrite rfind_from_shift, IH. done.
Qed.

Lemma last_occurrence (c : ascii) (l : list ascii) :
  c ∉ l \/ exists l1 l2, l = l1 ++ c :: l2 /\ c ∉ l2.
Proof.
  induction l as [|x l [IH|(l1 & l2 & -> & IH)]].
  - left. apply not_elem_of_nil.
  - destruct (decide (x = c)) as [->|Hne].
    + right. by exists [], l.
    + left. intros Hin. apply elem_of_cons in Hin as [?|?]; done.
  - right. by exists (x :: l1), l2.
Qed.

Lemma GetFilenameLastExtension_suffix (pre ext : list ascii) :
  "."%char ∉ ext -> "/"%char ∉ ext ->
  Chars.GetFilenameLastExtension (String.string_of_list_ascii (pre ++ "."%char :: ext))
  = String.string_of_list_ascii ("."%char :: ext).
Proof.
  intros Hdot Hslash. unfold Chars.GetFilenameLastExtension.
  rewrite String.list_ascii_of_string_of_list_ascii.
  assert (Hname : exists pre', Chars.GetFilenameName (pre ++ "."%char :: ext)
                               = pre' ++ "."%char :: ext).
  { unfold Chars.GetFilenameName.
    destruct (last_occurrence "/"%char pre) as [Hno|(l1 & l2 & -> & Hno)].
    - rewrite rfind_absent; [by exists pre|].
      rewrite elem_of_app, elem_of_cons. intros [?|[?|?]]; done.
    - rewrite <- app_assoc. simpl.
      rewrite rfind_last.
      + exists l2. replace (S (length l1)) with (length l1 + 1) by lia.
        by rewrite <- drop_drop, drop_app_length.
      + rewrite elem_of_app, elem_of_cons. intros [?|[?|?]]; done. }
  destruct Hname as [pre' ->]. rewrite rfind_last by done.
  by rewrite drop_app_length.
Qed.

(** X13: only the last extension of the last component of the output path
    counts, and its case does not: with a listable vector file, a path that
    ends in a dot followed by [ext], where [ext] has neither dot nor slash,
    is accepted exactly when [ext] lower-cased is "xml", whatever comes
    before that dot. *)
Theorem last_extension_decides
    (app : Application) (pre ext : list ascii) :
  vec_listable app ->
  param_out app = Some (String.string_of_list_ascii (pre ++ "."%char :: ext)) ->
  "."%char ∉ ext ->
  "/"%char ∉ ext ->
  outcome (DoUpdateParameters app) = Done tt
  <-> map Chars.tolower ext = chars "xml".
Proof.
  intros Hl Hout Hdot Hslash.
  rewrite (DoUpdateParameters_outcome_listable app Hl). unfold out_accepted.
  rewrite Hout. split.
  - intros [H|(out & H & Hext)]; [done|]. injection H as <-.
    rewrite GetFilenameLastExtension_suffix in Hext by done.
    unfold Chars.LowerCase in Hext.
    rewrite String.list_ascii_of_string_of_list_ascii in Hext.
    apply (f_equal chars) in Hext. unfold chars in Hext.
    rewrite String.list_ascii_of_string_of_list_ascii in Hext.
    simpl in Hext. by injection Hext.
  - intros Hxml. right. eexists. split; [reflexivity|].
    rewrite GetFilenameLastExtension_suffix by done.
    unfold Chars.LowerCase.
    rewrite String.list_ascii_of_string_of_list_ascii. simpl.
    by rewrite Hxml.
Qed.

Lemma last_extension_decides_witness :
  vec_listable Scenario.A
  /\ (outcome (DoUpdateParameters
                 (with_out Scenario.A "/data/run.1/stats.json.XmL")) = Done tt)
  /\ ~ (outcome (DoUpdateParameters
                   (with_out Scenario.A "/data/run.1/stats.xml.bak")) = Done tt).
Proof.
  assert (Hl : forall out, vec_listable (with_out Scenario.A out))
    by (intros out; right; by eexists).
  split; [right; by eexists|]. split.
  - apply (last_extension_decides (with_out Scenario.A "/data/run.1/stats.json.XmL")
             (chars "/data/run.1/stats.json") (chars "XmL") (Hl _) eq_refl).
    + apply (bool_decide_unpack _). vm_compute. exact I.
    + apply (bool_decide_unpack _). vm_compute. exact I.
    + reflexivity.
  - intros H.
    apply (last_extension_decides (with_out Scenario.A "/data/run.1/stats.xml.bak")
             (chars "/data/run.1/stats.xml") (chars "bak") (Hl _) eq_refl) in H.
    + discriminate H.
    + apply (bool_decide_unpack _). vm_compute. exact I.
    + apply (bool_decide_unpack _). vm_compute. exact I.
Defined.
